(** * SimilarSiteExtension: the popup script [popup.js]

    A shallow embedding of the browser-extension popup of the repository
    (functions [getCurrentTabUrl], [fetchSimilarSites],
    [displaySimilarSites] and [main] of [popup.js]) together with the
    properties of its request/response contract.

    Layout of the development:
    - [Js]      : the JavaScript values the script manipulates (they all
                  come out of [JSON.parse]) and the ECMAScript operations
                  the script applies to them;
    - [Eff]     : the effects of the script: the popup document, the
                  console, the network, exceptions;
    - [Popup]   : the four functions of [popup.js];
    - [RefEngine] : an executable instance of the built-ins the script
                  calls ([JSON.parse], number conversions, ...);
    - the properties. *)

From Stdlib Require Import ZArith List String Ascii Bool Lia DecimalString.
From Corelib Require Import SpecFloat.
Import ListNotations.

Local Open Scope list_scope.
Local Open Scope string_scope.

(* ================================================================= *)
(** ** JavaScript values *)

Module Js.

(** The values that reach the script: what [JSON.parse] can build, and
    [undefined] (the result of reading a missing property).  Numbers are
    IEEE-754 binary64 values.  Strings are byte strings holding the UTF-8
    encoding of the JavaScript string.  An object is the list of its own
    properties. *)
#[warnings="-register-all"]
Inductive JsVal : Type :=
| JUndefined
| JNull
| JBool (b : bool)
| JNum (x : spec_float)
| JStr (s : string)
| JArr (items : list JsVal)
| JObj (props : list (string * JsVal)).

(** A thrown [Error] object: the script only ever reads [.message]. *)
Record Exn := mkExn { exn_name : string; exn_message : string }.

(** A computation that returns or throws. *)
Inductive Result (A : Type) : Type :=
| Ok (a : A)
| Throw (e : Exn).
Arguments Ok {A} a.
Arguments Throw {A} e.

Definition rbind {A B} (r : Result A) (k : A -> Result B) : Result B :=
  match r with
  | Ok a => k a
  | Throw e => Throw e
  end.

(** The property names the script reads. *)
Inductive Key :=
| candidates | content | parts | text | similarWebsites | length | idx0.

Definition key_name (k : Key) : string :=
  match k with
  | candidates => "candidates"
  | content => "content"
  | parts => "parts"
  | text => "text"
  | similarWebsites => "similarWebsites"
  | length => "length"
  | idx0 => "0"
  end.

(** The faults the engine itself raises, whose message text is the
    engine's own. *)
Inductive Fault :=
| ReadOfNullish (base : JsVal) (k : Key)   (* null.candidates *)
| NotPrimitive                             (* ToPrimitive found no method *)
| Undeclared (name : string).              (* reference to an unbound global *)

(** The built-ins of the host that the script calls or triggers.  They
    are not code of the repository: the functions below take them as a
    parameter, and every property holds for any engine. *)
Record Engine := {
  JSON_parse : string -> Result JsVal;
  JSON_stringify : JsVal -> option string;
  Number_toString : spec_float -> string;
  StringToNumber : string -> spec_float;
  fault_message : Fault -> string
}.

Definition fault_name (f : Fault) : string :=
  match f with
  | ReadOfNullish _ _ => "TypeError"
  | NotPrimitive => "TypeError"
  | Undeclared _ => "ReferenceError"
  end.

Definition fault (E : Engine) (f : Fault) : Exn :=
  mkExn (fault_name f) (fault_message E f).

(** *** Numbers *)

Definition Number_of_Z (z : Z) : spec_float := binary_normalize 53 1024 z 0 false.
Definition Number_of_nat (n : nat) : spec_float := Number_of_Z (Z.of_nat n).
Definition NaN : spec_float := S754_nan.
Definition pos_zero : spec_float := S754_zero false.

(** [x > 0] on numbers. *)
Definition Number_gt0 (x : spec_float) : bool := SFltb pos_zero x.

(** *** Strings *)

Definition byte (c : ascii) : N := N_of_ascii c.

(** UTF-16 code units contributed by one byte of a UTF-8 string: a
    continuation byte counts for nothing, the lead byte of a four-byte
    sequence for a surrogate pair. *)
Definition utf16_units (c : ascii) : nat :=
  let b := byte c in
  if (b <? 128)%N then 1
  else if (b <? 192)%N then 0
  else if (b <? 240)%N then 1
  else 2.

(** [s.length] *)
Fixpoint String_length (s : string) : nat :=
  match s with
  | EmptyString => 0
  | String c r => utf16_units c + String_length r
  end.

Definition take (n : nat) (s : string) : string := String.substring 0 n s.

Definition ascii_of (n : N) : ascii := ascii_of_N n.

(** UTF-8 (WTF-8 for a lone surrogate) encoding of a code point. *)
Definition utf8_encode (cp : N) : string :=
  if (cp <? 128)%N then String (ascii_of cp) ""
  else if (cp <? 2048)%N then
    String (ascii_of (192 + cp / 64)) (String (ascii_of (128 + cp mod 64)) "")
  else if (cp <? 65536)%N then
    String (ascii_of (224 + cp / 4096))
      (String (ascii_of (128 + (cp / 64) mod 64))
         (String (ascii_of (128 + cp mod 64)) ""))
  else
    String (ascii_of (240 + cp / 262144))
      (String (ascii_of (128 + (cp / 4096) mod 64))
         (String (ascii_of (128 + (cp / 64) mod 64))
            (String (ascii_of (128 + cp mod 64)) ""))).

(** The code point encoded by a four-byte UTF-8 sequence. *)
Definition utf8_decode4 (c0 c1 c2 c3 : ascii) : N :=
  ((byte c0 mod 8) * 262144 + (byte c1 mod 64) * 4096
   + (byte c2 mod 64) * 64 + byte c3 mod 64)%N.

(** [s[0]]: the first UTF-16 code unit of [s] as a one-unit string
    (the high surrogate when [s] starts with a character outside the
    basic plane), or [undefined] on the empty string. *)
Definition String_at0 (s : string) : JsVal :=
  match s with
  | EmptyString => JUndefined
  | String c0 (String c1 (String c2 (String c3 _))) =>
      let b0 := byte c0 in
      if (b0 <? 192)%N then JStr (take 1 s)
      else if (b0 <? 224)%N then JStr (take 2 s)
      else if (b0 <? 240)%N then JStr (take 3 s)
      else JStr (utf8_encode (55296 + (utf8_decode4 c0 c1 c2 c3 - 65536) / 1024))
  | String c0 _ =>
      let b0 := byte c0 in
      if (b0 <? 192)%N then JStr (take 1 s)
      else if (b0 <? 224)%N then JStr (take 2 s)
      else JStr (take 3 s)
  end.

(** *** White space and [String.prototype.trim] *)

(** Length in bytes of the white-space character or line terminator
    that starts [s] (ECMAScript WhiteSpace and LineTerminator, in their
    UTF-8 encoding), 0 when [s] starts with none. *)
Definition ws_prefix (s : string) : nat :=
  match s with
  | EmptyString => 0
  | String c0 r =>
      let b0 := byte c0 in
      if ((b0 =? 9) || (b0 =? 10) || (b0 =? 11) || (b0 =? 12)
          || (b0 =? 13) || (b0 =? 32))%N then 1
      else
        match r with
        | EmptyString => 0
        | String c1 r1 =>
            let b1 := byte c1 in
            if ((b0 =? 194) && (b1 =? 160))%N then 2          (* U+00A0 *)
            else
              match r1 with
              | EmptyString => 0
              | String c2 _ =>
                  let b2 := byte c2 in
                  if ((b0 =? 225) && (b1 =? 154) && (b2 =? 128))%N then 3   (* U+1680 *)
                  else if ((b0 =? 226) && (b1 =? 128)
                           && ((128 <=? b2) && (b2 <=? 138)))%N then 3     (* U+2000..U+200A *)
                  else if ((b0 =? 226) && (b1 =? 128)
                           && ((b2 =? 168) || (b2 =? 169) || (b2 =? 175)))%N
                       then 3                                   (* U+2028 U+2029 U+202F *)
                  else if ((b0 =? 226) && (b1 =? 129) && (b2 =? 159))%N then 3   (* U+205F *)
                  else if ((b0 =? 227) && (b1 =? 128) && (b2 =? 128))%N then 3   (* U+3000 *)
                  else if ((b0 =? 239) && (b1 =? 187) && (b2 =? 191))%N then 3   (* U+FEFF *)
                  else 0
              end
        end
  end.

Fixpoint drop (n : nat) (s : string) : string :=
  match n, s with
  | S n', String _ r => drop n' r
  | _, _ => s
  end.

(** [s.trimStart()]; the fuel is the number of bytes of [s]. *)
Fixpoint trimStart_fuel (fuel : nat) (s : string) : string :=
  match fuel with
  | O => s
  | S fuel' =>
      match ws_prefix s with
      | O => s
      | n => trimStart_fuel fuel' (drop n s)
      end
  end.

Definition trimStart (s : string) : string := trimStart_fuel (String.length s) s.

(** [s.trimEnd()]: drop the longest suffix made of white space only. *)
Fixpoint trimEnd (s : string) : string :=
  match s with
  | EmptyString => EmptyString
  | String c r =>
      if String.eqb (trimStart s) "" then "" else String c (trimEnd r)
  end.

(** [s.trim()] *)
Definition trim (s : string) : string := trimEnd (trimStart s).

(** [s.startsWith(p)] *)
Definition startsWith (s p : string) : bool := String.prefix p s.

(** *** Operations on values *)

(** [ToBoolean] *)
Definition truthy (v : JsVal) : bool :=
  match v with
  | JUndefined | JNull => false
  | JBool b => b
  | JNum x =>
      match x with
      | S754_zero _ | S754_nan => false
      | _ => true
      end
  | JStr s => negb (String.eqb s "")
  | JArr _ | JObj _ => true
  end.

(** [typeof v === 'string'] *)
Definition is_string (v : JsVal) : bool :=
  match v with
  | JStr _ => true
  | _ => false
  end.

(** [Array.isArray(v)] *)
Definition Array_isArray (v : JsVal) : bool :=
  match v with
  | JArr _ => true
  | _ => false
  end.

(** Own property of an object built by [JSON.parse]. *)
Fixpoint lookup (name : string) (props : list (string * JsVal)) : option JsVal :=
  match props with
  | [] => None
  | (k, v) :: rest => if String.eqb k name then Some v else lookup name rest
  end.

Definition has_own (name : string) (props : list (string * JsVal)) : bool :=
  match lookup name props with
  | Some _ => true
  | None => false
  end.

Section WithEngine.

Variable E : Engine.

(** [v.k] and [v[0]], for the property names of [Key].  None of these
    names is defined on [Object.prototype], [Array.prototype],
    [String.prototype], [Number.prototype] or [Boolean.prototype]
    ([length] is an own property of arrays and strings), so a read that
    finds no own property yields [undefined].  Reading a property of
    [undefined] or [null] throws. *)
Definition Get (v : JsVal) (k : Key) : Result JsVal :=
  match v with
  | JUndefined | JNull => Throw (fault E (ReadOfNullish v k))
  | JBool _ | JNum _ => Ok JUndefined
  | JStr s =>
      match k with
      | length => Ok (JNum (Number_of_nat (String_length s)))
      | idx0 => Ok (String_at0 s)
      | _ => Ok JUndefined
      end
  | JArr items =>
      match k with
      | length => Ok (JNum (Number_of_nat (List.length items)))
      | idx0 => Ok (match items with x :: _ => x | [] => JUndefined end)
      | _ => Ok JUndefined
      end
  | JObj props =>
      match lookup (key_name k) props with
      | Some x => Ok x
      | None => Ok JUndefined
      end
  end.

(** [ToString].  An object built by [JSON.parse] has no callable own
    property: [ToPrimitive] reaches [Object.prototype.toString] (giving
    ["[object Object]"]) unless an own [toString] property shadows it, in
    which case no method yields a primitive and a [TypeError] is thrown.
    An array goes through [Array.prototype.join]. *)
Fixpoint ToString (v : JsVal) : Result string :=
  match v with
  | JUndefined => Ok "undefined"
  | JNull => Ok "null"
  | JBool true => Ok "true"
  | JBool false => Ok "false"
  | JNum x => Ok (Number_toString E x)
  | JStr s => Ok s
  | JArr items =>
      let element (x : JsVal) : Result string :=
        match x with
        | JUndefined | JNull => Ok ""
        | _ => ToString x
        end in
      (fix join (l : list JsVal) : Result string :=
         match l with
         | [] => Ok ""
         | [x] => element x
         | x :: rest =>
             rbind (element x) (fun sx =>
             rbind (join rest) (fun sr => Ok (sx ++ "," ++ sr)))
         end) items
  | JObj props =>
      if has_own "toString" props then Throw (fault E NotPrimitive)
      else Ok "[object Object]"
  end.

(** [ToNumber] *)
Definition ToNumber (v : JsVal) : Result spec_float :=
  match v with
  | JUndefined => Ok NaN
  | JNull => Ok pos_zero
  | JBool true => Ok (Number_of_Z 1)
  | JBool false => Ok pos_zero
  | JNum x => Ok x
  | JStr s => Ok (StringToNumber E s)
  | JArr _ | JObj _ => rbind (ToString v) (fun s => Ok (StringToNumber E s))
  end.

(** [v > 0] *)
Definition gt0 (v : JsVal) : Result bool :=
  rbind (ToNumber v) (fun x => Ok (Number_gt0 x)).

End WithEngine.

End Js.

(* ================================================================= *)
(** ** Effects: document, console, network, exceptions *)

Module Eff.
Import Js.

(** *** The popup document

    The four elements [popup.js] looks up by id (lines 4-7), reduced to
    the properties the script assigns.  The markup [popup.html] is not
    among the sources: the four elements are taken to exist, so that
    assigning to their properties cannot throw. *)

(** An [<a>] element built by [displaySimilarSites]. *)
Record Anchor := {
  a_href : string;
  a_textContent : string;
  a_target : string;
  a_classList : list string;
  a_title : string
}.

(** An [<li>] element built by [displaySimilarSites]. *)
Record ListItem := {
  li_classList : list string;
  li_children : list Anchor
}.

Record Page := {
  currentSite_textContent : string;
  currentSite_title : string;
  similarSitesList_children : list ListItem;
  message_textContent : string;
  message_style_display : string;
  loader_style_display : string
}.

Definition set_currentSite_textContent (s : string) (p : Page) : Page :=
  {| currentSite_textContent := s;
     currentSite_title := currentSite_title p;
     similarSitesList_children := similarSitesList_children p;
     message_textContent := message_textContent p;
     message_style_display := message_style_display p;
     loader_style_display := loader_style_display p |}.

Definition set_currentSite_title (s : string) (p : Page) : Page :=
  {| currentSite_textContent := currentSite_textContent p;
     currentSite_title := s;
     similarSitesList_children := similarSitesList_children p;
     message_textContent := message_textContent p;
     message_style_display := message_style_display p;
     loader_style_display := loader_style_display p |}.

Definition set_similarSitesList_children (l : list ListItem) (p : Page) : Page :=
  {| currentSite_textContent := currentSite_textContent p;
     currentSite_title := currentSite_title p;
     similarSitesList_children := l;
     message_textContent := message_textContent p;
     message_style_display := message_style_display p;
     loader_style_display := loader_style_display p |}.

Definition set_message_textContent (s : string) (p : Page) : Page :=
  {| currentSite_textContent := currentSite_textContent p;
     currentSite_title := currentSite_title p;
     similarSitesList_children := similarSitesList_children p;
     message_textContent := s;
     message_style_display := message_style_display p;
     loader_style_display := loader_style_display p |}.

Definition set_message_style_display (s : string) (p : Page) : Page :=
  {| currentSite_textContent := currentSite_textContent p;
     currentSite_title := currentSite_title p;
     similarSitesList_children := similarSitesList_children p;
     message_textContent := message_textContent p;
     message_style_display := s;
     loader_style_display := loader_style_display p |}.

Definition set_loader_style_display (s : string) (p : Page) : Page :=
  {| currentSite_textContent := currentSite_textContent p;
     currentSite_title := currentSite_title p;
     similarSitesList_children := similarSitesList_children p;
     message_textContent := message_textContent p;
     message_style_display := message_style_display p;
     loader_style_display := s |}.

(** An element is rendered unless its inline style says
    [display: none]. *)
Definition displayed (style_display : string) : bool :=
  negb (String.eqb style_display "none").

(** *** The host: tab registry and network *)

(** A [chrome.tabs.Tab]: only [url] is read; it is absent when the
    extension may not see it. *)
Record Tab := { tab_url : option string }.

(** The [queryInfo] argument of [chrome.tabs.query]. *)
Record QueryInfo := { q_active : bool; q_currentWindow : bool }.

(** [chrome.tabs]: [tabs_query] is the function [query] when the host
    has it; applied to a [queryInfo] it gives the value handed to the
    callback, [None] standing for [undefined]. *)
Record TabsApi := { tabs_query : option (QueryInfo -> option (list Tab)) }.

(** The object bound to [chrome]. *)
Record ChromeObject := { chrome_tabs : option TabsApi }.

(** The global [chrome]: not declared at all, or bound to [undefined]
    ([None]) or to an object. *)
Inductive ChromeGlobal :=
| ChromeUndeclared
| ChromeBound (c : option ChromeObject).

(** The arguments of one [fetch] call. *)
Record Request := {
  req_url : string;
  req_method : string;
  req_headers : list (string * string);
  req_body : option string   (* [None]: no body *)
}.

(** What the network answers to a request: [fetch] rejects, or it
    resolves with a response of some status whose body can be read as
    text or fails while being read. *)
Inductive FetchOutcome :=
| NetworkFailure (e : Exn)
| HttpResponse (status : nat) (body : Result string).

Record Response := { res_status : nat; res_body : Result string }.

(** A success status: 200 to 299. *)
Definition status_ok (status : nat) : bool :=
  (200 <=? status)%nat && (status <=? 299)%nat.

(** [response.ok] *)
Definition res_ok (r : Response) : bool := status_ok (res_status r).

Record Env := {
  chrome : ChromeGlobal;
  network : Request -> FetchOutcome
}.

(** *** Observable events *)

Inductive Level := LevelError | LevelWarn.

(** One argument of a console call. *)
Inductive LogArg :=
| LStr (s : string)
| LNat (n : nat)
| LVal (v : JsVal)
| LExn (e : Exn)
| LTabs (t : option (list Tab)).

Inductive Event :=
| EvTabsQuery (q : QueryInfo)          (* chrome.tabs.query(q, cb) *)
| EvFetch (r : Request)                (* fetch(url, init) *)
| EvResponseText                       (* response.text() *)
| EvResponseJson                       (* response.json() *)
| EvJSONparse (arg : JsVal)            (* JSON.parse(arg) *)
| EvConsole (l : Level) (args : list LogArg).

(** The mutable world: the document, and the events so far, oldest
    first. *)
Record World := { page : Page; events : list Event }.

(** *** The monad of the script: state that survives a throw

    The script is single-threaded and every [await] is on a promise that
    the host settles once: an [async] function is modelled as the
    sequence of its steps, a rejected promise as a throw at the [await].
    What a step has written to the page or to the console stays written
    when a later step throws. *)

Definition M (A : Type) : Type := World -> Result A * World.

Definition ret {A} (a : A) : M A := fun w => (Ok a, w).

Definition bind {A B} (m : M A) (k : A -> M B) : M B :=
  fun w =>
    match m w with
    | (Ok a, w') => k a w'
    | (Throw e, w') => (Throw e, w')
    end.

Definition throw {A} (e : Exn) : M A := fun w => (Throw e, w).

(** [try { body } catch (e) { handler e }] *)
Definition try_catch {A} (body : M A) (handler : Exn -> M A) : M A :=
  fun w =>
    match body w with
    | (Ok a, w') => (Ok a, w')
    | (Throw e, w') => handler e w'
    end.

Definition lift {A} (r : Result A) : M A := fun w => (r, w).

Definition emit (e : Event) : M unit :=
  fun w => (Ok tt, {| page := page w; events := (events w ++ [e])%list |}).

Definition update (f : Page -> Page) : M unit :=
  fun w => (Ok tt, {| page := f (page w); events := events w |}).

Definition console_error (args : list LogArg) : M unit := emit (EvConsole LevelError args).
Definition console_warn (args : list LogArg) : M unit := emit (EvConsole LevelWarn args).

Declare Scope js_scope.
Delimit Scope js_scope with js.
Notation "x <- m ;; k" := (bind m (fun x => k))
  (at level 100, m at next level, right associativity) : js_scope.
Notation "m ;; k" := (bind m (fun _ => k))
  (at level 100, right associativity) : js_scope.

(** Short-circuit conjunction of two tests that may throw. *)
Definition and_then (a b : Result bool) : Result bool :=
  rbind a (fun x => if x then b else Ok false).

Infix "&&&" := and_then (at level 40, left associativity) : js_scope.

End Eff.

(* ================================================================= *)
(** ** The script [popup.js] *)

Module Popup.
Import Js Eff.
Local Open Scope js_scope.

(** A double quote, for the string literals that contain one. *)
Definition dq : string := String (ascii_of_nat 34) EmptyString.

(** [const apiKey = ""] and [geminiApiUrl] (lines 10-11). *)
Definition apiKey : string := EmptyString.
Definition geminiApiUrl : string :=
  "https://generativelanguage.googleapis.com/v1beta/models/gemini-2.0-flash:generateContent?key="
  ++ apiKey.

(** Decimal text of a small non-negative integer, as a template literal
    prints [response.status]. *)
Definition decimal (n : nat) : string := NilEmpty.string_of_uint (Nat.to_uint n).

Section WithHost.

Variable E : Engine.
Variable env : Env.

(** *** [getCurrentTabUrl] (lines 17-35)

    The promise resolves with a URL or [null] ([None]); a throw inside
    the executor rejects it. *)
Definition getCurrentTabUrl : M (option string) :=
  match chrome env with
  | ChromeUndeclared =>
      (* evaluating the identifier [chrome] throws *)
      throw (fault E (Undeclared "chrome"))
  | ChromeBound (Some {| chrome_tabs := Some {| tabs_query := Some query |} |}) =>
      let q := {| q_active := true; q_currentWindow := true |} in
      emit (EvTabsQuery q) ;;
      let tabs := query q in
      match tabs with
      | Some ({| tab_url := Some url |} :: _) =>
          if negb (String.eqb url EmptyString) then ret (Some url)
          else
            console_error [LStr "Could not get current tab URL. Tabs:"; LTabs tabs] ;;
            ret None
      | _ =>
          console_error [LStr "Could not get current tab URL. Tabs:"; LTabs tabs] ;;
          ret None
      end
  | ChromeBound _ =>
      console_error
        [LStr "chrome.tabs.query is not available. Are you running this in an extension popup?"] ;;
      ret (Some "https://example.com")
  end.

(** *** [fetchSimilarSites] (lines 42-127) *)

Definition prompt_for (siteUrl : string) : string :=
  "List up to 5 websites that are functionally similar or offer similar content to "
  ++ dq ++ siteUrl ++ dq
  ++ ". Consider the primary purpose and audience of the given URL. Provide your answer ONLY as a JSON object with a single key "
  ++ dq ++ "similarWebsites" ++ dq
  ++ " whose value is an array of strings, where each string is a fully qualified URL. For example: {"
  ++ dq ++ "similarWebsites" ++ dq ++ ": [" ++ dq ++ "https://example.com" ++ dq ++ ", "
  ++ dq ++ "https://another.example.com" ++ dq
  ++ "]}. If you cannot find any similar websites, return an empty array for "
  ++ dq ++ "similarWebsites" ++ dq ++ ".".

Definition payload_for (prompt : string) : JsVal :=
  JObj
    [ ("contents", JArr [ JObj [ ("parts", JArr [ JObj [ ("text", JStr prompt) ] ]) ] ]);
      ("generationConfig",
        JObj
          [ ("responseMimeType", JStr "application/json");
            ("responseSchema",
              JObj
                [ ("type", JStr "OBJECT");
                  ("properties",
                    JObj
                      [ ("similarWebsites",
                          JObj
                            [ ("type", JStr "ARRAY");
                              ("items",
                                JObj
                                  [ ("type", JStr "STRING");
                                    ("description",
                                      JStr "A URL of a similar website (e.g., https://www.example.com)")
                                  ]) ]) ]);
                  ("required", JArr [ JStr "similarWebsites" ]) ]) ]) ].

(** [await fetch(url, init)] *)
Definition fetch (r : Request) : M Response :=
  emit (EvFetch r) ;;
  match network env r with
  | NetworkFailure e => throw e
  | HttpResponse status body => ret {| res_status := status; res_body := body |}
  end.

(** [await response.text()] *)
Definition response_text (r : Response) : M string :=
  emit EvResponseText ;; lift (res_body r).

(** [await response.json()]: the body read as text, then parsed. *)
Definition response_json (r : Response) : M JsVal :=
  emit EvResponseJson ;;
  body <- lift (res_body r) ;;
  lift (JSON_parse E body).

(** [JSON.parse(v)]: the argument goes through [ToString]. *)
Definition JSON_parse_value (v : JsVal) : M JsVal :=
  emit (EvJSONparse v) ;;
  s <- lift (ToString E v) ;;
  lift (JSON_parse E s).

(** The condition of lines 93-96. *)
Definition has_text_part (result : JsVal) : Result bool :=
  (* result.candidates *)
  rbind (Get E result candidates) (fun c => Ok (truthy c))
  (* result.candidates.length > 0 *)
  &&& rbind (Get E result candidates) (fun c =>
      rbind (Get E c length) (fun n => gt0 E n))
  (* result.candidates[0].content *)
  &&& rbind (Get E result candidates) (fun c =>
      rbind (Get E c idx0) (fun c0 =>
      rbind (Get E c0 content) (fun ct => Ok (truthy ct))))
  (* result.candidates[0].content.parts *)
  &&& rbind (Get E result candidates) (fun c =>
      rbind (Get E c idx0) (fun c0 =>
      rbind (Get E c0 content) (fun ct =>
      rbind (Get E ct parts) (fun ps => Ok (truthy ps)))))
  (* result.candidates[0].content.parts.length > 0 *)
  &&& rbind (Get E result candidates) (fun c =>
      rbind (Get E c idx0) (fun c0 =>
      rbind (Get E c0 content) (fun ct =>
      rbind (Get E ct parts) (fun ps =>
      rbind (Get E ps length) (fun n => gt0 E n)))))
  (* result.candidates[0].content.parts[0].text *)
  &&& rbind (Get E result candidates) (fun c =>
      rbind (Get E c idx0) (fun c0 =>
      rbind (Get E c0 content) (fun ct =>
      rbind (Get E ct parts) (fun ps =>
      rbind (Get E ps idx0) (fun p0 =>
      rbind (Get E p0 text) (fun t => Ok (truthy t))))))).

(** [result.candidates[0].content.parts[0].text] (line 98). *)
Definition text_of (result : JsVal) : Result JsVal :=
  rbind (Get E result candidates) (fun c =>
  rbind (Get E c idx0) (fun c0 =>
  rbind (Get E c0 content) (fun ct =>
  rbind (Get E ct parts) (fun ps =>
  rbind (Get E ps idx0) (fun p0 =>
  Get E p0 text))))).

(** The callback of [filter] (lines 105-109). *)
Definition keep_url (url : JsVal) : bool :=
  match url with
  | JStr s =>
      (* typeof url === 'string' *) true
      && negb (String.eqb (trim s) EmptyString)
      && (startsWith s "http://" || startsWith s "https://")
  | _ => (* typeof url === 'string' *) false
  end.

(** The strings of an array of values; [filter keep_url] leaves only
    strings, see [strings_of_kept]. *)
Fixpoint strings_of (l : list JsVal) : list string :=
  match l with
  | [] => []
  | JStr s :: rest => s :: strings_of rest
  | _ :: rest => strings_of rest
  end.

(** Lines 103-113: the test on the parsed value, then the filter. *)
Definition sites_of_parsed (parsedJson : JsVal) : M (list string) :=
  ok <- lift (Ok (truthy parsedJson)
              &&& rbind (Get E parsedJson similarWebsites) (fun a => Ok (truthy a))
              &&& rbind (Get E parsedJson similarWebsites) (fun a => Ok (Array_isArray a))) ;;
  if (ok : bool) then
    a <- lift (Get E parsedJson similarWebsites) ;;
    match a with
    | JArr items => ret (strings_of (filter keep_url items))
    | _ => ret []   (* not reached: [ok] holds only for arrays *)
    end
  else
    console_warn
      [LStr "Parsed JSON does not have the expected 'similarWebsites' array structure:";
       LVal parsedJson] ;;
    ret [].

(** The argument of [fetch] (lines 74-80). *)
Definition request_for (site : string) : Request :=
  {| req_url := geminiApiUrl;
     req_method := "POST";
     req_headers := [("Content-Type", "application/json")];
     req_body := JSON_stringify E (payload_for (prompt_for site)) |}.

(** Lines 101-117: the inner [try] / [catch]. *)
Definition parse_text (jsonText : JsVal) : M (list string) :=
  try_catch
    (parsedJson <- JSON_parse_value jsonText ;;
     sites_of_parsed parsedJson)
    (fun e =>
       console_error
         [LStr "Failed to parse JSON from API response:"; LExn e;
          LStr "Raw text was:"; LVal jsonText] ;;
       ret []).

(** Lines 93-121: what is done with the decoded body. *)
Definition read_envelope (result : JsVal) : M (list string) :=
  valid <- lift (has_text_part result) ;;
  if (valid : bool) then
    jsonText <- lift (text_of result) ;;
    parse_text jsonText
  else
    console_warn [LStr "No valid candidates or content parts in API response:"; LVal result] ;;
    ret [].

(** The [Error] built at line 85. *)
Definition api_error (status : nat) (errorBody : string) : Exn :=
  mkExn "Error"
    ("API request failed with status " ++ decimal status ++ ". Details: " ++ errorBody).

(** Lines 82-86: a response that is not [ok] is turned into a throw. *)
Definition check_status (response : Response) : M unit :=
  if negb (res_ok response) then
    errorBody <- response_text response ;;
    console_error [LStr "API request failed:"; LNat (res_status response); LStr errorBody] ;;
    throw (api_error (res_status response) errorBody)
  else ret tt.

(** Lines 122-126: the outer [catch]. *)
Definition on_error (error : Exn) : M (list string) :=
  console_error [LStr "Error fetching similar sites:"; LExn error] ;;
  update (set_message_textContent ("Error: " ++ exn_message error)) ;;
  ret [].

Definition fetchSimilarSites (siteUrl : JsVal) : M (list string) :=
  if negb (truthy siteUrl) then ret []
  else
    site <- lift (ToString E siteUrl) ;;
    try_catch
      (response <- fetch (request_for site) ;;
       check_status response ;;
       result <- response_json response ;;
       read_envelope result)
      on_error.

(** *** [displaySimilarSites] (lines 133-159) *)

(** The body of the [forEach] callback: the [<li>] built for one site. *)
Definition site_item (site : string) : ListItem :=
  let link :=
    {| a_href := site;
       a_textContent := site;
       a_target := "_blank";
       a_classList := ["site-link"; "text-blue-600"; "hover:underline"; "block"; "truncate"];
       a_title := site |} in
  {| li_classList := ["site-item"; "p-2"; "hover:bg-gray-100"; "rounded-md"];
     li_children := [link] |}.

(** [similarSitesListElement.appendChild(listItem)] *)
Definition appendChild (item : ListItem) : M unit :=
  update (fun p => set_similarSitesList_children
                     (similarSitesList_children p ++ [item])%list p).

Fixpoint forEach {A} (l : list A) (f : A -> M unit) : M unit :=
  match l with
  | [] => ret tt
  | x :: rest => f x ;; forEach rest f
  end.

Definition displaySimilarSites (sites : list string) : M unit :=
  update (set_similarSitesList_children []) ;;
  if (List.length sites =? 0)%nat then
    update (set_message_textContent "No similar sites found or API error.")
  else
    update (set_message_style_display "none") ;;
    forEach sites (fun site => appendChild (site_item site)).

(** *** [main] (lines 164-190) *)

(** [if (url)] on a value that is a string or [null]. *)
Definition url_truthy (url : option string) : bool :=
  match url with
  | Some u => negb (String.eqb u EmptyString)
  | None => false
  end.

(** The string held by a truthy [url]. *)
Definition url_string (url : option string) : string :=
  match url with
  | Some u => u
  | None => EmptyString
  end.

Definition main : M unit :=
  update (set_loader_style_display "block") ;;
  update (set_message_textContent "Fetching current URL...") ;;
  update (set_similarSitesList_children []) ;;
  url <- getCurrentTabUrl ;;
  if url_truthy url then
    update (set_currentSite_textContent (url_string url)) ;;
    update (set_currentSite_title (url_string url)) ;;
    update (set_message_textContent "Finding similar sites...") ;;
    try_catch
      (similarSites <- fetchSimilarSites (JStr (url_string url)) ;;
       update (set_loader_style_display "none") ;;
       displaySimilarSites similarSites)
      (fun error =>
         console_error [LStr "Error in main execution flow:"; LExn error] ;;
         update (set_loader_style_display "none") ;;
         update (set_message_textContent
                   "Failed to load suggestions. See console for details."))
  else
    update (set_loader_style_display "none") ;;
    update (set_currentSite_textContent "N/A") ;;
    update (set_message_textContent
              "Could not determine the current site URL. Ensure you are on a valid webpage.").

End WithHost.

End Popup.

(* ================================================================= *)
(** ** A reference engine

    An executable instance of [Engine], used to run the script on
    concrete inputs.  No property below depends on it: each is proved
    for every engine. *)

Module RefEngine.
Import Js.

(** *** Decimal text to binary64 *)

Definition pow10 (k : Z) : Z := 10 ^ k.

(** The binary64 value nearest to [m * 10^e10] ([m > 0]), ties to even.
    A negative power of ten is divided out with 64 spare bits, and a
    sticky bit records an inexact quotient, so that the single rounding
    of [binary_normalize] is the correct one. *)
Definition round_decimal (neg : bool) (m e10 : Z) : spec_float :=
  let sgn (z : Z) := if neg then Z.opp z else z in
  if (m <=? 0)%Z then S754_zero neg
  else if (400 <? e10 + Z.log2 m / 4)%Z then S754_infinity neg
  else if (e10 + Z.log2 m / 3 + 1 <? -400)%Z then S754_zero neg
  else if (0 <=? e10)%Z then
    binary_normalize 53 1024 (sgn (m * pow10 e10)%Z) 0 false
  else
    let d := pow10 (- e10) in
    let s := (Z.log2 d + 64)%Z in
    let q := ((m * 2 ^ s) / d)%Z in
    let r := ((m * 2 ^ s) mod d)%Z in
    let sticky := if (r =? 0)%Z then 0%Z else 1%Z in
    match binary_normalize 53 1024 (sgn (2 * q + sticky)%Z) (- (s + 1)) false with
    | S754_zero _ => S754_zero neg
    | x => x
    end.

Definition ch_is (c : ascii) (ch : string) : bool :=
  match ch with
  | String d EmptyString => Ascii.eqb c d
  | _ => false
  end.

Definition digit_of (c : ascii) : option Z :=
  let b := byte c in
  if ((48 <=? b) && (b <=? 57))%N then Some (Z.of_N b - 48)%Z else None.

(** The longest run of decimal digits at the head of [s]: its value
    continuing [acc], how many there are, and what follows. *)
Fixpoint take_digits (s : string) (acc : Z) (n : Z) : Z * Z * string :=
  match s with
  | EmptyString => (acc, n, s)
  | String c r =>
      match digit_of c with
      | Some d => take_digits r (acc * 10 + d)%Z (n + 1)%Z
      | None => (acc, n, s)
      end
  end.

(** An optional exponent part [e+12], [E-3], ...: the exponent (0 when
    there is none) and the rest; [None] when [e] is not followed by
    digits. *)
Definition take_exponent (s : string) : option (Z * string) :=
  match s with
  | String c r =>
      if ch_is c "e" || ch_is c "E" then
        let '(neg, r1) :=
          match r with
          | String c1 r' =>
              if ch_is c1 "-" then (true, r')
              else if ch_is c1 "+" then (false, r')
              else (false, r)
          | EmptyString => (false, r)
          end in
        let '(e, n, r2) := take_digits r1 0 0 in
        if (n =? 0)%Z then None
        else Some (if neg then (- e)%Z else e, r2)
      else Some (0%Z, s)
  | EmptyString => Some (0%Z, s)
  end.

(** *** [JSON.parse] *)

Definition dquote : ascii := ascii_of_nat 34.

(** JSON white space: space, tab, line feed, carriage return. *)
Fixpoint skip_ws (s : string) : string :=
  match s with
  | String c r =>
      let b := byte c in
      if ((b =? 32) || (b =? 9) || (b =? 10) || (b =? 13))%N then skip_ws r else s
  | EmptyString => s
  end.

Definition hex_of (c : ascii) : option N :=
  let b := byte c in
  if ((48 <=? b) && (b <=? 57))%N then Some (b - 48)%N
  else if ((97 <=? b) && (b <=? 102))%N then Some (b - 87)%N
  else if ((65 <=? b) && (b <=? 70))%N then Some (b - 55)%N
  else None.

(** One item of a string literal: a byte taken as it stands, or the
    UTF-16 code unit of a [\uXXXX] escape. *)
Inductive StrItem :=
| Raw (c : ascii)
| Unit16 (u : N).

(** The items of a string literal after its opening quote, up to the
    closing quote, and what follows it. *)
Fixpoint string_items (s : string) : option (list StrItem * string) :=
  match s with
  | EmptyString => None
  | String c r =>
      if Ascii.eqb c dquote then Some ([], r)
      else if (byte c <? 32)%N then None
      else if ch_is c "\" then
        match r with
        | String e r1 =>
            let simple (b : N) :=
              option_map (fun '(l, rest) => (Raw (ascii_of b) :: l, rest)) (string_items r1) in
            if Ascii.eqb e dquote then simple 34%N
            else if ch_is e "\" then simple 92%N
            else if ch_is e "/" then simple 47%N
            else if ch_is e "b" then simple 8%N
            else if ch_is e "f" then simple 12%N
            else if ch_is e "n" then simple 10%N
            else if ch_is e "r" then simple 13%N
            else if ch_is e "t" then simple 9%N
            else if ch_is e "u" then
              match r1 with
              | String h3 (String h2 (String h1 (String h0 r5))) =>
                  match hex_of h3, hex_of h2, hex_of h1, hex_of h0 with
                  | Some a, Some b, Some c', Some d =>
                      option_map
                        (fun '(l, rest) => (Unit16 (a * 4096 + b * 256 + c' * 16 + d)%N :: l, rest))
                        (string_items r5)
                  | _, _, _, _ => None
                  end
              | _ => None
              end
            else None
        | EmptyString => None
        end
      else option_map (fun '(l, rest) => (Raw c :: l, rest)) (string_items r)
  end.

Definition is_high_surrogate (u : N) : bool := ((55296 <=? u) && (u <=? 56319))%N.
Definition is_low_surrogate (u : N) : bool := ((56320 <=? u) && (u <=? 57343))%N.

(** The UTF-8 text of the items: a surrogate pair makes one character. *)
Fixpoint encode_items (l : list StrItem) : string :=
  match l with
  | [] => EmptyString
  | Raw c :: rest => String c (encode_items rest)
  | Unit16 hi :: rest =>
      match rest with
      | Unit16 lo :: rest' =>
          if is_high_surrogate hi && is_low_surrogate lo then
            utf8_encode (65536 + (hi - 55296) * 1024 + (lo - 56320))%N ++ encode_items rest'
          else utf8_encode hi ++ encode_items rest
      | _ => utf8_encode hi ++ encode_items rest
      end
  end.

(** A string literal, after its opening quote. *)
Definition parse_string (s : string) : option (string * string) :=
  option_map (fun '(l, rest) => (encode_items l, rest)) (string_items s).

(** A JSON number: an optional minus sign; an integer part, either a
    single 0 or digits that do not start with 0; an optional fraction, a
    point and at least one digit; an optional exponent. *)
Definition parse_number (s : string) : option (spec_float * string) :=
  let '(neg, s1) :=
    match s with
    | String c r => if ch_is c "-" then (true, r) else (false, s)
    | EmptyString => (false, s)
    end in
  let '(int, n_int, s2) := take_digits s1 0 0 in
  let leading_zero :=
    match s1 with
    | String c _ => ch_is c "0"
    | EmptyString => false
    end in
  if (n_int =? 0)%Z || (leading_zero && (1 <? n_int)%Z) then None
  else
    let frac :=
      match s2 with
      | String c r =>
          if ch_is c "." then
            let '(m, n, r') := take_digits r int 0 in
            if (n =? 0)%Z then None else Some (m, n, r')
          else Some (int, 0%Z, s2)
      | EmptyString => Some (int, 0%Z, s2)
      end in
    match frac with
    | None => None
    | Some (m, n_frac, s3) =>
        match take_exponent s3 with
        | None => None
        | Some (e, s4) => Some (round_decimal neg m (e - n_frac)%Z, s4)
        end
    end.

(** [s] starts with the literal [lit]: what follows it. *)
Fixpoint expect (lit s : string) : option string :=
  match lit, s with
  | EmptyString, _ => Some s
  | String a l', String b s' => if Ascii.eqb a b then expect l' s' else None
  | _, EmptyString => None
  end.

(** Define property [k]: a repeated name keeps its place and takes the
    later value. *)
Fixpoint set_prop (k : string) (v : JsVal) (props : list (string * JsVal))
  : list (string * JsVal) :=
  match props with
  | [] => [(k, v)]
  | (k', v') :: rest =>
      if String.eqb k' k then (k', v) :: rest else (k', v') :: set_prop k v rest
  end.

(** A JSON value at the head of [s], and what follows it.  Each nested
    call spends one unit of fuel; twice the length of the text is
    enough. *)
Fixpoint parse_value (fuel : nat) (s : string) : option (JsVal * string) :=
  match fuel with
  | O => None
  | S fuel' =>
      match s with
      | EmptyString => None
      | String c r =>
          if ch_is c "n" then option_map (pair JNull) (expect "ull" r)
          else if ch_is c "t" then option_map (pair (JBool true)) (expect "rue" r)
          else if ch_is c "f" then option_map (pair (JBool false)) (expect "alse" r)
          else if Ascii.eqb c dquote then
            option_map (fun '(str, rest) => (JStr str, rest)) (parse_string r)
          else if ch_is c "[" then
            match skip_ws r with
            | String c1 r1 =>
                if ch_is c1 "]" then Some (JArr [], r1)
                else parse_elements fuel' (skip_ws r) []
            | EmptyString => None
            end
          else if ch_is c "{" then
            match skip_ws r with
            | String c1 r1 =>
                if ch_is c1 "}" then Some (JObj [], r1)
                else parse_members fuel' (skip_ws r) []
            | EmptyString => None
            end
          else option_map (fun '(x, rest) => (JNum x, rest)) (parse_number s)
      end
  end
with parse_elements (fuel : nat) (s : string) (acc : list JsVal) : option (JsVal * string) :=
  match fuel with
  | O => None
  | S fuel' =>
      match parse_value fuel' s with
      | None => None
      | Some (v, r) =>
          match skip_ws r with
          | String c r1 =>
              if ch_is c "," then parse_elements fuel' (skip_ws r1) (acc ++ [v])%list
              else if ch_is c "]" then Some (JArr (acc ++ [v])%list, r1)
              else None
          | EmptyString => None
          end
      end
  end
with parse_members (fuel : nat) (s : string) (acc : list (string * JsVal))
  : option (JsVal * string) :=
  match fuel with
  | O => None
  | S fuel' =>
      match s with
      | String q r0 =>
          if Ascii.eqb q dquote then
            match parse_string r0 with
            | None => None
            | Some (k, r) =>
                match skip_ws r with
                | String c r1 =>
                    if ch_is c ":" then
                      match parse_value fuel' (skip_ws r1) with
                      | None => None
                      | Some (v, r2) =>
                          match skip_ws r2 with
                          | String c2 r3 =>
                              if ch_is c2 "," then
                                parse_members fuel' (skip_ws r3) (set_prop k v acc)
                              else if ch_is c2 "}" then Some (JObj (set_prop k v acc), r3)
                              else None
                          | EmptyString => None
                          end
                      end
                    else None
                | EmptyString => None
                end
            end
          else None
      | EmptyString => None
      end
  end.

Definition syntax_error (s : string) : Exn :=
  mkExn "SyntaxError"
    (if String.eqb (skip_ws s) EmptyString then "Unexpected end of JSON input"
     else "Unexpected token in JSON").

(** [JSON.parse(s)]: one value, with white space around it and nothing
    else. *)
Definition JSON_parse (s : string) : Result JsVal :=
  match parse_value (2 * String.length s + 2) (skip_ws s) with
  | Some (v, rest) =>
      if String.eqb (skip_ws rest) EmptyString then Ok v else Throw (syntax_error s)
  | None => Throw (syntax_error s)
  end.

(** *** [StringToNumber] *)

Definition radix_digit (radix : N) (c : ascii) : option Z :=
  match hex_of c with
  | Some d => if (d <? radix)%N then Some (Z.of_N d) else None
  | None => None
  end.

Fixpoint take_radix (radix : N) (s : string) (acc : Z) (n : Z) : Z * Z * string :=
  match s with
  | EmptyString => (acc, n, s)
  | String c r =>
      match radix_digit radix c with
      | Some d => take_radix radix r (acc * Z.of_N radix + d)%Z (n + 1)%Z
      | None => (acc, n, s)
      end
  end.

(** [0x..], [0o..], [0b..]: the integer, when [s] is such a literal. *)
Definition radix_literal (s : string) : option Z :=
  match s with
  | String z (String x r) =>
      let radix :=
        if ch_is x "x" || ch_is x "X" then Some 16%N
        else if ch_is x "o" || ch_is x "O" then Some 8%N
        else if ch_is x "b" || ch_is x "B" then Some 2%N
        else None in
      match radix with
      | Some rd =>
          if ch_is z "0" then
            let '(v, n, rest) := take_radix rd r 0 0 in
            if (0 <? n)%Z && String.eqb rest EmptyString then Some v else None
          else None
      | None => None
      end
  | _ => None
  end.

(** A signed decimal literal: [Infinity], or digits with an optional
    point and exponent, at least one digit before the exponent. *)
Definition decimal_literal (s : string) : spec_float :=
  let '(neg, u) :=
    match s with
    | String c r =>
        if ch_is c "-" then (true, r) else if ch_is c "+" then (false, r) else (false, s)
    | EmptyString => (false, s)
    end in
  if String.eqb u "Infinity" then S754_infinity neg
  else
    let '(int, n_int, r1) := take_digits u 0 0 in
    let '(m, n_frac, r2) :=
      match r1 with
      | String c r => if ch_is c "." then take_digits r int 0 else (int, 0%Z, r1)
      | EmptyString => (int, 0%Z, r1)
      end in
    if (n_int + n_frac =? 0)%Z then NaN
    else
      match take_exponent r2 with
      | Some (e, EmptyString) =>
          if (m =? 0)%Z then S754_zero neg else round_decimal neg m (e - n_frac)%Z
      | _ => NaN
      end.

Definition StringToNumber (s : string) : spec_float :=
  let t := trim s in
  if String.eqb t EmptyString then pos_zero
  else
    match radix_literal t with
    | Some z => Number_of_Z z
    | None => decimal_literal t
    end.

(** *** [Number::toString] *)

Definition digits_of (z : Z) : string := NilEmpty.string_of_uint (N.to_uint (Z.to_N z)).

Fixpoint zeros (n : nat) : string :=
  match n with
  | O => EmptyString
  | S n' => String "0" (zeros n')
  end.

(** [a / b < 10^n] *)
Definition lt_pow10 (a b n : Z) : bool :=
  if (0 <=? n)%Z then (a <? pow10 n * b)%Z else (a * pow10 (- n) <? b)%Z.

Fixpoint first_pow10_above (fuel : nat) (a b n : Z) : Z :=
  match fuel with
  | O => n
  | S fuel' => if lt_pow10 a b n then n else first_pow10_above fuel' a b (n + 1)%Z
  end.

(** The [n] with [10^(n-1) <= a/b < 10^n], found upwards from an
    estimate that is at most three too small. *)
Definition decimal_exponent (a b : Z) : Z :=
  first_pow10_above 8 a b ((Z.log2 a - Z.log2 b) * 30103 / 100000 - 3)%Z.

(** The [k]-digit integer [c] such that [c * 10^(n-k)] reads back as
    [x], the nearest to [x = a/b] when two do (the even one on a tie). *)
Definition candidate (x : spec_float) (a b n k : Z) : option Z :=
  let scale := (n - k)%Z in
  let num := if (0 <=? scale)%Z then a else (a * pow10 (- scale))%Z in
  let den := if (0 <=? scale)%Z then (b * pow10 scale)%Z else b in
  let lo := (num / den)%Z in
  let rem := (num mod den)%Z in
  let hi := (lo + 1)%Z in
  let reads_back (c : Z) := (0 <? c)%Z && SFeqb (round_decimal false c scale) x in
  match reads_back lo, reads_back hi with
  | true, true =>
      match (2 * rem ?= den)%Z with
      | Lt => Some lo
      | Gt => Some hi
      | Eq => Some (if Z.even lo then lo else hi)
      end
  | true, false => Some lo
  | false, true => Some hi
  | false, false => None
  end.

(** The shortest digits: the first [k] from [k] on that has a
    candidate, with that candidate. *)
Fixpoint shortest (fuel : nat) (x : spec_float) (a b n k : Z) : Z * Z :=
  match fuel with
  | O => (k, (a * pow10 (k - n) / b)%Z)
  | S fuel' =>
      match candidate x a b n k with
      | Some c => (k, c)
      | None => shortest fuel' x a b n (k + 1)%Z
      end
  end.

(** The text of a positive finite number whose shortest digits are
    [ds] ([k] of them) with the decimal point after the [n]-th. *)
Definition format_digits (ds : string) (k n : Z) : string :=
  if ((k <=? n) && (n <=? 21))%Z then ds ++ zeros (Z.to_nat (n - k))
  else if ((0 <? n) && (n <=? 21))%Z then
    take (Z.to_nat n) ds ++ "." ++ drop (Z.to_nat n) ds
  else if ((-6 <? n) && (n <=? 0))%Z then "0." ++ zeros (Z.to_nat (- n)) ++ ds
  else
    let e := (n - 1)%Z in
    let exponent := (if (0 <=? e)%Z then "+" else "-") ++ digits_of (Z.abs e) in
    if (k =? 1)%Z then ds ++ "e" ++ exponent
    else take 1 ds ++ "." ++ drop 1 ds ++ "e" ++ exponent.

Definition Number_toString (x : spec_float) : string :=
  match x with
  | S754_nan => "NaN"
  | S754_zero _ => "0"
  | S754_infinity false => "Infinity"
  | S754_infinity true => "-Infinity"
  | S754_finite neg m e =>
      let sign := if neg then "-" else EmptyString in
      match binary_normalize 53 1024 (Zpos m) e false with
      | S754_finite _ m' e' =>
          let a := if (0 <=? e')%Z then (Zpos m' * 2 ^ e')%Z else Zpos m' in
          let b := if (0 <=? e')%Z then 1%Z else (2 ^ (- e'))%Z in
          let n := decimal_exponent a b in
          let '(k, c) := shortest 17 (S754_finite false m' e') a b n 1 in
          if (c =? pow10 k)%Z then sign ++ format_digits "1" 1 (n + 1)
          else sign ++ format_digits (digits_of c) k n
      | S754_infinity _ => sign ++ "Infinity"
      | _ => "0"
      end
  end.

(** *** [JSON.stringify] *)

Definition hex_digit (n : N) : ascii :=
  if (n <? 10)%N then ascii_of (48 + n) else ascii_of (87 + n).

Definition u_escape (u : N) : string :=
  "\u" ++ String (hex_digit (u / 4096))
            (String (hex_digit ((u / 256) mod 16))
               (String (hex_digit ((u / 16) mod 16))
                  (String (hex_digit (u mod 16)) EmptyString))).

Definition dq : string := String dquote EmptyString.

(** The characters of a string literal: quote, backslash and control
    characters escaped, a lone surrogate written as an escape. *)
Fixpoint quote_body (s : string) : string :=
  match s with
  | EmptyString => EmptyString
  | String c r =>
      let b := byte c in
      if (b =? 34)%N then "\" ++ dq ++ quote_body r
      else if (b =? 92)%N then "\\" ++ quote_body r
      else if (b =? 8)%N then "\b" ++ quote_body r
      else if (b =? 12)%N then "\f" ++ quote_body r
      else if (b =? 10)%N then "\n" ++ quote_body r
      else if (b =? 13)%N then "\r" ++ quote_body r
      else if (b =? 9)%N then "\t" ++ quote_body r
      else if (b <? 32)%N then u_escape b ++ quote_body r
      else
        match r with
        | String c1 (String c2 r') =>
            if ((b =? 237) && (160 <=? byte c1))%N then
              u_escape (53248 + (byte c1 mod 64) * 64 + byte c2 mod 64)%N ++ quote_body r'
            else String c (quote_body r)
        | _ => String c (quote_body r)
        end
  end.

Definition quote (s : string) : string := dq ++ quote_body s ++ dq.

(** [JSON.stringify(v)]; [None] is [undefined].  Properties are written
    in the order of the list. *)
Fixpoint JSON_stringify (v : JsVal) : option string :=
  match v with
  | JUndefined => None
  | JNull => Some "null"
  | JBool true => Some "true"
  | JBool false => Some "false"
  | JNum x =>
      match x with
      | S754_nan | S754_infinity _ => Some "null"
      | _ => Some (Number_toString x)
      end
  | JStr s => Some (quote s)
  | JArr items =>
      let element (x : JsVal) : string :=
        match JSON_stringify x with
        | Some t => t
        | None => "null"
        end in
      Some ("[" ++ String.concat "," (List.map element items) ++ "]")
  | JObj props =>
      let members :=
        (fix members (l : list (string * JsVal)) : list string :=
           match l with
           | [] => []
           | (k, x) :: rest =>
               match JSON_stringify x with
               | Some t => (quote k ++ ":" ++ t) :: members rest
               | None => members rest
               end
           end) props in
      Some ("{" ++ String.concat "," members ++ "}")
  end.

(** *** Messages of the engine's own errors *)

Definition fault_message (f : Fault) : string :=
  match f with
  | ReadOfNullish base k =>
      "Cannot read properties of "
      ++ (match base with JNull => "null" | _ => "undefined" end)
      ++ " (reading '" ++ key_name k ++ "')"
  | NotPrimitive => "Cannot convert object to primitive value"
  | Undeclared name => name ++ " is not defined"
  end.

Definition engine : Engine :=
  {| Js.JSON_parse := JSON_parse;
     Js.JSON_stringify := JSON_stringify;
     Js.Number_toString := Number_toString;
     Js.StringToNumber := StringToNumber;
     Js.fault_message := fault_message |}.

End RefEngine.

(* ================================================================= *)
(** ** Vocabulary of the properties *)

Module Spec.
Import Js Eff Popup.

(** An empty or absent URL argument: [undefined], [null] or the empty
    string. *)
Definition absent_url (v : JsVal) : Prop :=
  v = JUndefined \/ v = JNull \/ v = JStr EmptyString.

(** A URL argument: a string, or absent. *)
Definition url_argument (v : JsVal) : Prop :=
  v = JUndefined \/ v = JNull \/ exists s, v = JStr s.

Definition is_fetch (e : Event) : bool :=
  match e with
  | EvFetch _ => true
  | _ => false
  end.

(** Number of calls to the HTTP transport so far. *)
Definition fetch_calls (w : World) : nat := List.length (filter is_fetch (events w)).



Definition is_console (e : Event) : bool :=
  match e with
  | EvConsole _ _ => true
  | _ => false
  end.

(** Number of console entries so far. *)
Definition log_entries (w : World) : nat := List.length (filter is_console (events w)).

(** The function [query] of the object bound to [chrome], when the host
    has the tab-query capability. *)
Definition query_of (c : option ChromeObject) : option (QueryInfo -> option (list Tab)) :=
  match c with
  | Some {| chrome_tabs := Some {| tabs_query := q |} |} => q
  | _ => None
  end.

(** The URL of the first tab of a query result, when it has one that is
    not empty. *)
Definition usable_url (tabs : option (list Tab)) : option string :=
  match tabs with
  | Some ({| tab_url := Some url |} :: _) =>
      if String.eqb url EmptyString then None else Some url
  | _ => None
  end.

(** The active-tab query of [getCurrentTabUrl]. *)
Definition active_tab_query : QueryInfo := {| q_active := true; q_currentWindow := true |}.

(** A non-empty string beginning with [http://] or [https://]. *)
Definition valid_site (v : JsVal) : bool :=
  match v with
  | JStr s =>
      negb (String.eqb s EmptyString)
      && (String.prefix "http://" s || String.prefix "https://" s)
  | _ => false
  end.

(** The world after one more event. *)
Definition log (w : World) (e : Event) : World :=
  {| page := page w; events := (events w ++ [e])%list |}.

(** The fixed message of an empty rendering. *)
Definition no_results : string := "No similar sites found or API error.".




(** A rendered entry for [site]: one link whose label, tooltip and
    target are the URL, and which opens in a new browsing context. *)
Definition entry_for (site : string) (item : ListItem) : Prop :=
  exists a : Anchor,
    li_children item = [a]
    /\ a_href a = site
    /\ a_textContent a = site
    /\ a_title a = site
    /\ a_target a = "_blank".

(** The presentation a flow ends with when no site is found for the
    page [u]: the no-results message, an empty list, the loader hidden. *)
Definition no_results_page (u : string) (p : Page) : Page :=
  {| currentSite_textContent := u;
     currentSite_title := u;
     similarSitesList_children := [];
     message_textContent := no_results;
     message_style_display := message_style_display p;
     loader_style_display := "none" |}.

(** The page after a flow that found [sites] for the page [u]. *)
Definition sites_page (u : string) (sites : list string) (p : Page) : Page :=
  {| currentSite_textContent := u;
     currentSite_title := u;
     similarSitesList_children := List.map site_item sites;
     message_textContent := "Finding similar sites...";
     message_style_display := "none";
     loader_style_display := "none" |}.

Section Stages.

Variable E : Engine.
Variable env : Env.

(** What [getCurrentTabUrl] settles with. *)
Definition located_url : Result (option string) :=
  match chrome env with
  | ChromeUndeclared => Throw (fault E (Undeclared "chrome"))
  | ChromeBound c =>
      match query_of c with
      | Some query => Ok (usable_url (query active_tab_query))
      | None => Ok (Some "https://example.com")
      end
  end.

(** The decoded body of a success-status answer to the request made for
    [site]. *)
Definition decoded_body (site : string) : option JsVal :=
  match network env (request_for E site) with
  | HttpResponse status (Ok body) =>
      if status_ok status then
        match JSON_parse E body with
        | Ok result => Some result
        | Throw _ => None
        end
      else None
  | _ => None
  end.

(** The text field the script extracts from a decoded body: that of the
    first part of the first candidate, when the condition of lines
    93-96 holds. *)
Definition extracted_text (result : JsVal) : option JsVal :=
  match has_text_part E result with
  | Ok true =>
      match text_of E result with
      | Ok t => Some t
      | Throw _ => None
      end
  | _ => None
  end.

(** [JSON.parse] applied to the extracted text. *)
Definition decoded_text (jsonText : JsVal) : Result JsVal :=
  rbind (ToString E jsonText) (JSON_parse E).

(** The array held under the agreed key by the decoded inner text. *)
Definition suggestions (parsedJson : JsVal) : option (list JsVal) :=
  match Get E parsedJson similarWebsites with
  | Ok (JArr items) => Some items
  | _ => None
  end.

(** How one call for the page [site] ends, in the terms of the error
    taxonomy. *)
Inductive Outcome :=
| TransportFailure     (* network failure, status not 2xx, unreadable body *)
| MalformedEnvelope    (* body not JSON, or no text in first candidate *)
| MalformedPayload     (* inner text not JSON, or no array under the key *)
| Suggestions (items : list JsVal).

Definition outcome (site : string) : Outcome :=
  match network env (request_for E site) with
  | NetworkFailure _ => TransportFailure
  | HttpResponse status body =>
      if negb (status_ok status) then TransportFailure
      else
        match body with
        | Throw _ => TransportFailure
        | Ok b =>
            match JSON_parse E b with
            | Throw _ => MalformedEnvelope
            | Ok result =>
                match extracted_text result with
                | None => MalformedEnvelope
                | Some jsonText =>
                    match decoded_text jsonText with
                    | Throw _ => MalformedPayload
                    | Ok parsedJson =>
                        match suggestions parsedJson with
                        | None => MalformedPayload
                        | Some items => Suggestions items
                        end
                    end
                end
            end
        end
  end.

(** The sites an outcome gives to the caller. *)
Definition sites_of_outcome (o : Outcome) : list string :=
  match o with
  | Suggestions items => strings_of (filter keep_url items)
  | _ => []
  end.

End Stages.

End Spec.

(* ================================================================= *)
(** ** Sample hosts and inputs *)

Module Sample.
Import Js Eff Popup Spec.

Definition page0 : Page :=
  {| currentSite_textContent := EmptyString;
     currentSite_title := EmptyString;
     similarSitesList_children := [];
     message_textContent := EmptyString;
     message_style_display := EmptyString;
     loader_style_display := EmptyString |}.

Definition world0 : World := {| page := page0; events := [] |}.

Definition engine : Engine := RefEngine.engine.

(** The host of an extension popup whose active tab shows [url]. *)
Definition chrome_popup (url : string) : ChromeGlobal :=
  ChromeBound
    (Some {| chrome_tabs :=
               Some {| tabs_query := Some (fun _ => Some [ {| tab_url := Some url |} ]) |} |}).

(** A page outside an extension: [chrome] is bound to an object that
    has no [tabs]. *)
Definition chrome_plain_page : ChromeGlobal := ChromeBound (Some {| chrome_tabs := None |}).

(** An extension popup whose query finds no tab. *)
Definition chrome_no_tab : ChromeGlobal :=
  ChromeBound (Some {| chrome_tabs := Some {| tabs_query := Some (fun _ => Some []) |} |}).

Definition tab : string := "https://news.example.org/".

Definition env_of (c : ChromeGlobal) (answer : FetchOutcome) : Env :=
  {| chrome := c; network := fun _ => answer |}.

Definition json_text (v : JsVal) : string :=
  match RefEngine.JSON_stringify v with
  | Some s => s
  | None => EmptyString
  end.

(** An envelope whose candidates are [cs]. *)
Definition envelope (cs : list JsVal) : JsVal := JObj [("candidates", JArr cs)].

(** A candidate with one part whose text is [t]. *)
Definition candidate_with (t : JsVal) : JsVal :=
  JObj [("content", JObj [("parts", JArr [ JObj [("text", t)] ])])].

(** The inner JSON text for a list of suggestions. *)
Definition inner_text (sites : list JsVal) : string :=
  json_text (JObj [("similarWebsites", JArr sites)]).

Definition ok_with (body : JsVal) : FetchOutcome := HttpResponse 200 (Ok (json_text body)).

(** Status 200, one candidate, two suggestions. *)
Definition answer_two_sites : FetchOutcome :=
  ok_with (envelope [candidate_with (JStr (inner_text [JStr "https://a.com"; JStr "https://b.com"]))]).

(** Status 200, a well-formed envelope, no suggestion. *)
Definition answer_no_site : FetchOutcome :=
  ok_with (envelope [candidate_with (JStr (inner_text []))]).

(** Status 200, the inner text is prose. *)
Definition answer_prose : FetchOutcome :=
  ok_with (envelope [candidate_with (JStr "Here are some sites you may like")]).

(** Status 200, the first candidate is empty and the second one holds
    the text. *)
Definition answer_second_candidate : FetchOutcome :=
  ok_with (envelope [JObj []; candidate_with (JStr (inner_text [JStr "https://a.com"]))]).

(** Status 200, suggestions of mixed quality, more than five valid. *)
Definition mixed_sites : list JsVal :=
  [JStr "ftp://x.com"; JStr "https://ok.com"; JNum (Number_of_Z 7); JStr EmptyString;
   JStr "http://a.com"; JStr "https://ok.com"; JNull; JStr "https://c.com";
   JStr " https://d.com"; JStr "https://e.com"; JStr "https://f.com"; JStr "https://g.com"].

Definition answer_mixed : FetchOutcome :=
  ok_with (envelope [candidate_with (JStr (inner_text mixed_sites))]).

(** Status 500 with a diagnostic body. *)
Definition answer_500 : FetchOutcome := HttpResponse 500 (Ok "backend exploded").

(** The pieces of [answer_prose]. *)
Definition prose_text : JsVal := JStr "Here are some sites you may like".
Definition prose_result : JsVal := envelope [candidate_with prose_text].
Definition prose_error : Exn := RefEngine.syntax_error "Here are some sites you may like".

(** The pieces of [answer_mixed]. *)
Definition mixed_text : JsVal := JStr (inner_text mixed_sites).
Definition mixed_result : JsVal := envelope [candidate_with mixed_text].
Definition mixed_parsed : JsVal := JObj [("similarWebsites", JArr mixed_sites)].

(** The pieces of [answer_two_sites]. *)
Definition two_sites_text : JsVal :=
  JStr (inner_text [JStr "https://a.com"; JStr "https://b.com"]).
Definition two_sites_result : JsVal := envelope [candidate_with two_sites_text].

(** The pieces of [answer_second_candidate]. *)
Definition second_text : JsVal := JStr (inner_text [JStr "https://a.com"]).
Definition second_result : JsVal := envelope [JObj []; candidate_with second_text].

Definition env_two_sites : Env := env_of (chrome_popup tab) answer_two_sites.
Definition env_no_site : Env := env_of (chrome_popup tab) answer_no_site.
Definition env_prose : Env := env_of (chrome_popup tab) answer_prose.
Definition env_second_candidate : Env := env_of (chrome_popup tab) answer_second_candidate.
Definition env_mixed : Env := env_of (chrome_popup tab) answer_mixed.
Definition env_500 : Env := env_of (chrome_popup tab) answer_500.

(** The same network seen from a page outside an extension, and from a
    popup whose query finds no tab. *)
Definition env_plain_page : Env := env_of chrome_plain_page answer_two_sites.
Definition env_no_tab : Env := env_of chrome_no_tab answer_two_sites.

(** The world after one site has been rendered: the message is hidden. *)
Definition world_after_one_site : World := snd (displaySimilarSites ["https://x.com"] world0).

End Sample.

(* ================================================================= *)
(** ** Vocabulary of the further properties *)

Module Shape.
Import Js Eff Popup Spec.

(** A string that begins with [http://] or [https://]. *)
Definition http_scheme (s : string) : bool :=
  String.prefix "http://" s || String.prefix "https://" s.

(** Every link of a list item points to an [http] or [https] URL. *)
Definition links_http (item : ListItem) : Prop :=
  Forall (fun a => http_scheme (a_href a) = true) (li_children item).

Definition is_tabs_query (e : Event) : bool :=
  match e with
  | EvTabsQuery _ => true
  | _ => false
  end.

(** Number of calls to [chrome.tabs.query] so far. *)
Definition query_calls (w : World) : nat := List.length (filter is_tabs_query (events w)).

(** The reading of a decoded body of the documented shape
    [{candidates: [{content: {parts: [{text: ...}]}}]}], with pieces
    possibly missing, empty or [null]: the text of the first part of the
    first candidate, nothing, or the [null] whose property the script
    reads.  A body of another shape (a string where an array is expected,
    say) is [Untyped]. *)
Inductive Reading :=
| Found (t : JsVal)
| Missing
| NullRead (k : Key)
| Untyped.

Definition reading_of_part (p0 : JsVal) : Reading :=
  match p0 with
  | JNull => NullRead text
  | JObj p =>
      match lookup "text" p with
      | Some t => Found t
      | None => Missing
      end
  | _ => Untyped
  end.

Definition reading_of_content (ct : JsVal) : Reading :=
  match ct with
  | JNull => Missing
  | JObj c =>
      match lookup "parts" c with
      | None | Some JNull | Some (JArr []) => Missing
      | Some (JArr (p0 :: _)) => reading_of_part p0
      | Some _ => Untyped
      end
  | _ => Untyped
  end.

Definition reading_of_candidate (c0 : JsVal) : Reading :=
  match c0 with
  | JNull => NullRead content
  | JObj c =>
      match lookup "content" c with
      | None => Missing
      | Some ct => reading_of_content ct
      end
  | _ => Untyped
  end.

Definition reading (result : JsVal) : Reading :=
  match result with
  | JNull => NullRead candidates
  | JObj r =>
      match lookup "candidates" r with
      | None | Some JNull | Some (JArr []) => Missing
      | Some (JArr (c0 :: _)) => reading_of_candidate c0
      | Some _ => Untyped
      end
  | _ => Untyped
  end.

(** What [getCurrentTabUrl] adds to the trace: at most one query, and
    one console entry when it falls back or finds no usable URL. *)
Definition locator_events (env : Env) : list Event :=
  match chrome env with
  | ChromeUndeclared => []
  | ChromeBound c =>
      match query_of c with
      | Some query =>
          EvTabsQuery active_tab_query
          :: match usable_url (query active_tab_query) with
             | Some _ => []
             | None =>
                 [EvConsole LevelError
                    [LStr "Could not get current tab URL. Tabs:";
                     LTabs (query active_tab_query)]]
             end
      | None =>
          [EvConsole LevelError
             [LStr "chrome.tabs.query is not available. Are you running this in an extension popup?"]]
      end
  end.

(** The world once the request for [site] has been sent from [w] and
    [response.json()] has been called. *)
Definition world_after_json (E : Engine) (site : string) (w : World) : World :=
  {| page := page w;
     events := (events w ++ [EvFetch (request_for E site); EvResponseJson])%list |}.

(** The world in which the decoded body [result] was found to hold no
    data: one warning, the page as it was. *)
Definition world_no_data (E : Engine) (site : string) (w : World) (result : JsVal) : World :=
  {| page := page w;
     events := (events w
                ++ [EvFetch (request_for E site);
                    EvResponseJson;
                    EvConsole LevelWarn
                      [LStr "No valid candidates or content parts in API response:";
                       LVal result]])%list |}.


(** A body with two candidates, the first holding the text and the
    second empty, and a host that gets it with status 200. *)
Definition first_of_two_result : JsVal :=
  Sample.envelope [Sample.candidate_with Sample.second_text; JObj []].
Definition env_first_of_two : Env :=
  Sample.env_of (Sample.chrome_popup Sample.tab) (Sample.ok_with first_of_two_result).

(** A body whose [candidates] is not an array but an object with a
    [length] and an element [0]: [reading] calls it [Untyped]. *)
Definition array_like_result : JsVal :=
  JObj [("candidates",
         JObj [("length", JNum (Number_of_Z 1));
               ("0", Sample.candidate_with Sample.second_text)])].

(** The page [main] leaves when the identifier [chrome] is not
    declared: the first three assignments of [main] and nothing more. *)
Definition loading_page (p : Page) : Page :=
  {| currentSite_textContent := currentSite_textContent p;
     currentSite_title := currentSite_title p;
     similarSitesList_children := [];
     message_textContent := "Fetching current URL...";
     message_style_display := message_style_display p;
     loader_style_display := "block" |}.

(** The page [main] leaves when no URL is located. *)
Definition no_url_page (p : Page) : Page :=
  {| currentSite_textContent := "N/A";
     currentSite_title := currentSite_title p;
     similarSitesList_children := [];
     message_textContent :=
       "Could not determine the current site URL. Ensure you are on a valid webpage.";
     message_style_display := message_style_display p;
     loader_style_display := "none" |}.

(** The page [main] leaves, from the page it starts on. *)
Definition final_page (E : Engine) (env : Env) (p : Page) : Page :=
  match located_url E env with
  | Throw _ => loading_page p
  | Ok None => no_url_page p
  | Ok (Some u) =>
      match sites_of_outcome (outcome E env u) with
      | [] => no_results_page u p
      | site :: rest => sites_page u (site :: rest) p
      end
  end.

End Shape.

(* ================================================================= *)
(** ** Properties *)

Import Js Eff Popup Spec.

(** *** Running the monad *)

Lemma app_two {A} (l : list A) (a b : A) : ((l ++ [a]) ++ [b] = l ++ [a; b])%list.
Proof. rewrite <- app_assoc. reflexivity. Qed.

(** Gather the events appended one by one into a single list. *)
Ltac gather_events := rewrite <- ?app_assoc; cbn [app].

Lemma count_app (f : Event -> bool) (l l' : list Event) :
  List.length (filter f (l ++ l')) = List.length (filter f l) + List.length (filter f l').
Proof. rewrite filter_app, length_app. reflexivity. Qed.

(** Unfold the monad operations, leaving the script's own functions. *)
Ltac run :=
  unfold try_catch, bind, ret, throw, lift, emit, update, console_error, console_warn;
  cbn [fst snd page events].

(** *** The model on small inputs *)

Example trim_sample : trim "   a b  " = "a b".
Proof. reflexivity. Qed.

(** A no-break space (bytes 194, 160) is white space for [trim]. *)
Example trim_nbsp_sample :
  trim (String (ascii_of_nat 194) (String (ascii_of_nat 160) "x")) = "x".
Proof. reflexivity. Qed.

Example keep_url_sample :
  List.map keep_url
    [JStr "ftp://x.com"; JStr "https://ok.com"; JStr "http://"; JStr " https://d.com";
     JStr EmptyString; JNull; JNum (Number_of_Z 7); JArr [JStr "https://in.array"]]
  = [false; true; true; false; false; false; false; false].
Proof. reflexivity. Qed.

(** The sample of the specification for the filter. *)
Example filter_sample :
  strings_of (filter keep_url [JStr "ftp://x.com"; JStr "https://ok.com"]) = ["https://ok.com"].
Proof. reflexivity. Qed.

Example truthy_sample :
  List.map truthy [JUndefined; JNull; JStr EmptyString; JStr "0"; JNum pos_zero; JNum NaN;
                   JNum (Number_of_Z 3); JArr []; JObj []]
  = [false; false; false; true; false; false; true; true; true].
Proof. reflexivity. Qed.

(** Reading through [null] throws; reading a missing property does
    not. *)
Example Get_sample :
  Get Sample.engine JNull candidates
  = Throw (mkExn "TypeError" "Cannot read properties of null (reading 'candidates')")
  /\ Get Sample.engine (JObj []) candidates = Ok JUndefined
  /\ Get Sample.engine (JArr [JNull]) idx0 = Ok JNull
  /\ Get Sample.engine (JStr "abc") idx0 = Ok (JStr "a")
  /\ gt0 Sample.engine (JNum (Number_of_nat 1)) = Ok true
  /\ gt0 Sample.engine (JNum (Number_of_nat 0)) = Ok false
  /\ gt0 Sample.engine JUndefined = Ok false.
Proof. repeat split; reflexivity. Qed.

(** The condition of lines 93-96 on a few envelopes. *)
Example has_text_part_sample :
  has_text_part Sample.engine Sample.two_sites_result = Ok true
  /\ has_text_part Sample.engine (Sample.envelope []) = Ok false
  /\ has_text_part Sample.engine (JObj []) = Ok false
  /\ has_text_part Sample.engine (Sample.envelope [Sample.candidate_with (JStr EmptyString)])
     = Ok false
  /\ has_text_part Sample.engine Sample.second_result = Ok false
  /\ has_text_part Sample.engine (Sample.envelope [JNull])
     = Throw (mkExn "TypeError" "Cannot read properties of null (reading 'content')").
Proof. repeat split; vm_compute; reflexivity. Qed.

(** The reference engine on numbers and texts. *)
Example number_text_sample :
  List.map (fun s => RefEngine.Number_toString (RefEngine.StringToNumber s))
    ["0.1"; "1e21"; "123456789012345680000"; "0.0000001"; "5e-324"; " 42 "; "0x1F"; "abc";
     "-1.5"; "1e400"]
  = ["0.1"; "1e+21"; "123456789012345680000"; "1e-7"; "5e-324"; "42"; "31"; "NaN";
     "-1.5"; "Infinity"].
Proof. vm_compute. reflexivity. Qed.

Example JSON_parse_sample :
  RefEngine.JSON_parse "[1, true, null, {}]"
  = Ok (JArr [JNum (Number_of_Z 1); JBool true; JNull; JObj []])
  /\ RefEngine.JSON_parse "[1,]" = Throw (mkExn "SyntaxError" "Unexpected token in JSON")
  /\ RefEngine.JSON_parse "Here are some sites"
     = Throw (mkExn "SyntaxError" "Unexpected token in JSON")
  /\ RefEngine.JSON_parse EmptyString
     = Throw (mkExn "SyntaxError" "Unexpected end of JSON input").
Proof. repeat split; vm_compute; reflexivity. Qed.

(** Text and value of a sample body agree. *)
Example JSON_round_trip_sample :
  RefEngine.JSON_parse (Sample.json_text Sample.two_sites_result) = Ok Sample.two_sites_result
  /\ RefEngine.JSON_parse (Sample.json_text Sample.second_result) = Ok Sample.second_result
  /\ RefEngine.JSON_parse (Sample.json_text Sample.mixed_result) = Ok Sample.mixed_result.
Proof. repeat split; vm_compute; reflexivity. Qed.

(** *** The filter *)

(** A string that begins with [h] keeps a first character through
    [trim]. *)
Lemma trim_keeps_h (r : string) : trim (String "h" r) <> EmptyString.
Proof.
  unfold trim.
  assert (Hs : trimStart (String "h" r) = String "h" r).
  { unfold trimStart. cbn [String.length trimStart_fuel].
    assert (Hw : ws_prefix (String "h" r) = 0) by (destruct r as [|c1 [|c2 r2]]; reflexivity).
    rewrite Hw. reflexivity. }
  rewrite Hs. cbn [trimEnd]. rewrite Hs. cbn. discriminate.
Qed.

Lemma prefix_http_first (c : ascii) (r : string) :
  String.prefix "http://" (String c r) || String.prefix "https://" (String c r) = true ->
  c = "h"%char.
Proof.
  intros H.
  destruct (Ascii.ascii_dec "h" c) as [Heq|Hne]; [symmetry; exact Heq|].
  exfalso.
  change (String.prefix "http://" (String c r))
    with (if Ascii.ascii_dec "h" c then String.prefix "ttp://" r else false) in H.
  change (String.prefix "https://" (String c r))
    with (if Ascii.ascii_dec "h" c then String.prefix "ttps://" r else false) in H.
  destruct (Ascii.ascii_dec "h" c); [contradiction|]. discriminate.
Qed.

Lemma prefix_http_nonblank (s : string) :
  String.prefix "http://" s || String.prefix "https://" s = true ->
  String.eqb (trim s) EmptyString = false /\ String.eqb s EmptyString = false.
Proof.
  intros H. destruct s as [|c r].
  - cbn in H. discriminate.
  - apply prefix_http_first in H. subst c. split.
    + apply String.eqb_neq. apply trim_keeps_h.
    + reflexivity.
Qed.

(** The callback of [filter] accepts exactly the non-empty strings that
    begin with [http://] or [https://]: the [trim] test never decides. *)
Lemma keep_url_valid_site (v : JsVal) : keep_url v = valid_site v.
Proof.
  destruct v as [| | b | x | s | items | props]; try reflexivity.
  unfold keep_url, valid_site, startsWith. cbn [andb].
  destruct (String.prefix "http://" s || String.prefix "https://" s) eqn:Hp.
  - destruct (prefix_http_nonblank s Hp) as [Ht Hs]. rewrite Ht, Hs. reflexivity.
  - rewrite !andb_false_r. reflexivity.
Qed.

(** What the filter keeps are strings: [strings_of] loses nothing. *)
Lemma strings_of_kept (l : list JsVal) :
  List.map JStr (strings_of (filter keep_url l)) = filter keep_url l.
Proof.
  induction l as [|v l IH]; [reflexivity|].
  cbn [filter]. destruct (keep_url v) eqn:Hk; [|exact IH].
  destruct v; cbn in Hk; try discriminate.
  cbn [strings_of List.map]. rewrite IH. reflexivity.
Qed.

(** *** The stages of [fetchSimilarSites] *)

Section StageLemmas.

Variable E : Engine.
Variable env : Env.

Lemma on_error_run (e : Exn) (w : World) :
  on_error e w
  = (Ok [],
     {| page := set_message_textContent ("Error: " ++ exn_message e) (page w);
        events := (events w
                   ++ [EvConsole LevelError [LStr "Error fetching similar sites:"; LExn e]])%list |}).
Proof. reflexivity. Qed.

(** Lines 103-113 never throw: they return the filtered array, or warn
    and return nothing. *)
Lemma sites_of_parsed_run (parsedJson : JsVal) (w : World) :
  sites_of_parsed E parsedJson w
  = match suggestions E parsedJson with
    | Some items => (Ok (strings_of (filter keep_url items)), w)
    | None =>
        (Ok [],
         log w (EvConsole LevelWarn
                  [LStr "Parsed JSON does not have the expected 'similarWebsites' array structure:";
                   LVal parsedJson]))
    end.
Proof.
  unfold sites_of_parsed, suggestions, log.
  destruct parsedJson as [| | b | x | s | items | props]; run; cbn;
    try reflexivity.
  - destruct b; reflexivity.
  - destruct x; reflexivity.
  - destruct (String.eqb s EmptyString); reflexivity.
  - destruct (lookup "similarWebsites" props) as [v|]; cbn; [|reflexivity].
    destruct v as [| | b | x | s | items | props']; cbn; try reflexivity.
    + destruct b; reflexivity.
    + destruct x; reflexivity.
    + destruct (String.eqb s EmptyString); reflexivity.
Qed.

(** Lines 101-117: a failure of [JSON.parse] is caught, logged, and
    gives nothing. *)
Lemma parse_text_run (jsonText : JsVal) (w : World) :
  parse_text E jsonText w
  = match decoded_text E jsonText with
    | Ok parsedJson => sites_of_parsed E parsedJson (log w (EvJSONparse jsonText))
    | Throw e =>
        (Ok [],
         {| page := page w;
            events := (events w
                       ++ [EvJSONparse jsonText;
                           EvConsole LevelError
                             [LStr "Failed to parse JSON from API response:"; LExn e;
                              LStr "Raw text was:"; LVal jsonText]])%list |})
    end.
Proof.
  unfold parse_text, JSON_parse_value, decoded_text, rbind, log. run.
  destruct (ToString E jsonText) as [s|e]; cbn -[sites_of_parsed].
  - destruct (JSON_parse E s) as [v|e]; cbn -[sites_of_parsed].
    + rewrite !sites_of_parsed_run. destruct (suggestions E v); reflexivity.
    + rewrite app_two. reflexivity.
  - rewrite app_two. reflexivity.
Qed.

(** When the condition of lines 93-96 holds, line 98 reads a truthy
    text without throwing. *)
Lemma has_text_part_text_of (result : JsVal) :
  has_text_part E result = Ok true ->
  exists t, text_of E result = Ok t /\ truthy t = true.
Proof.
  unfold has_text_part, text_of, and_then, rbind.
  destruct (Get E result candidates) as [c|e]; [|discriminate].
  destruct (truthy c); [|discriminate].
  destruct (Get E c length) as [n|e]; [|discriminate].
  destruct (gt0 E n) as [[|]|e]; try discriminate.
  destruct (Get E c idx0) as [c0|e]; [|discriminate].
  destruct (Get E c0 content) as [ct|e]; [|discriminate].
  destruct (truthy ct); [|discriminate].
  destruct (Get E ct parts) as [ps|e]; [|discriminate].
  destruct (truthy ps); [|discriminate].
  destruct (Get E ps length) as [n'|e]; [|discriminate].
  destruct (gt0 E n') as [[|]|e]; try discriminate.
  destruct (Get E ps idx0) as [p0|e]; [|discriminate].
  destruct (Get E p0 text) as [t|e]; [|discriminate].
  destruct (truthy t) eqn:Ht; [|discriminate].
  intros _. exists t. split; [reflexivity|exact Ht].
Qed.

Lemma extracted_text_spec (result : JsVal) :
  match extracted_text E result with
  | Some t => has_text_part E result = Ok true /\ text_of E result = Ok t /\ truthy t = true
  | None => has_text_part E result <> Ok true
  end.
Proof.
  unfold extracted_text.
  destruct (has_text_part E result) as [[|]|e] eqn:Hh; try discriminate.
  destruct (has_text_part_text_of result Hh) as [t [Ht Htr]].
  rewrite Ht. auto.
Qed.

(** Lines 93-121. *)
Lemma read_envelope_run (result : JsVal) (w : World) :
  read_envelope E result w
  = match extracted_text E result with
    | Some jsonText => parse_text E jsonText w
    | None =>
        match has_text_part E result with
        | Throw e => (Throw e, w)
        | Ok _ =>
            (Ok [],
             log w (EvConsole LevelWarn
                      [LStr "No valid candidates or content parts in API response:";
                       LVal result]))
        end
    end.
Proof.
  pose proof (extracted_text_spec result) as Hs.
  unfold read_envelope, log. run.
  destruct (extracted_text E result) as [t|].
  - destruct Hs as [Hh [Ht _]]. rewrite Hh, Ht. reflexivity.
  - destruct (has_text_part E result) as [[|]|e]; try reflexivity.
    exfalso. apply Hs. reflexivity.
Qed.

(** Lines 73-126 for a truthy string argument, stage by stage. *)
Lemma fetchSimilarSites_run (site : string) (w : World) :
  truthy (JStr site) = true ->
  fetchSimilarSites E env (JStr site) w
  = let w1 := log w (EvFetch (request_for E site)) in
    match network env (request_for E site) with
    | NetworkFailure e => on_error e w1
    | HttpResponse status body =>
        if status_ok status then
          let w2 := log w1 EvResponseJson in
          match body with
          | Throw e => on_error e w2
          | Ok b =>
              match JSON_parse E b with
              | Throw e => on_error e w2
              | Ok result =>
                  match read_envelope E result w2 with
                  | (Ok sites, w') => (Ok sites, w')
                  | (Throw e, w') => on_error e w'
                  end
              end
          end
        else
          let w2 := log w1 EvResponseText in
          match body with
          | Throw e => on_error e w2
          | Ok b =>
              on_error (api_error status b)
                (log w2 (EvConsole LevelError
                           [LStr "API request failed:"; LNat status; LStr b]))
          end
    end.
Proof.
  intros Hu. unfold fetchSimilarSites. rewrite Hu. cbn [negb ToString].
  unfold fetch, check_status, response_text, response_json, res_ok, log, api_error.
  run.
  destruct (network env (request_for E site)) as [e|status body]; [reflexivity|].
  cbn [res_status res_body].
  destruct (status_ok status); cbn [negb].
  - destruct body as [b|e]; [|reflexivity].
    destruct (JSON_parse E b) as [result|e]; [|reflexivity].
    cbn [page events]. reflexivity.
  - destruct body as [b|e]; reflexivity.
Qed.

End StageLemmas.

(** *** The guard on the argument *)

(** C1: for every call of [fetchSimilarSites] whose URL is empty or
    absent ([undefined], [null] or the empty string), the function
    returns an empty sequence immediately and issues no network request:
    the world is left as it was, and the number of calls to the HTTP
    transport does not change. *)
Theorem fetchSimilarSites_absent_url (E : Engine) (env : Env) (siteUrl : JsVal) (w : World) :
  absent_url siteUrl ->
  fetchSimilarSites E env siteUrl w = (Ok [], w)
  /\ fetch_calls (snd (fetchSimilarSites E env siteUrl w)) = fetch_calls w.
Proof.
  intros [-> | [-> | ->]]; split; reflexivity.
Qed.

Lemma fetchSimilarSites_absent_url_witness :
  absent_url JNull
  /\ fetchSimilarSites Sample.engine Sample.env_two_sites JNull Sample.world0
     = (Ok [], Sample.world0)
  /\ fetch_calls (snd (fetchSimilarSites Sample.engine Sample.env_two_sites JNull Sample.world0))
     = fetch_calls Sample.world0.
Proof.
  split.
  - right; left; reflexivity.
  - apply (fetchSimilarSites_absent_url Sample.engine Sample.env_two_sites JNull Sample.world0).
    right; left; reflexivity.
Defined.

(** *** A response that is not a success *)



(** *** A success response *)

Lemma decoded_body_inv (E : Engine) (env : Env) (site : string) (result : JsVal) :
  decoded_body E env site = Some result ->
  exists status body,
    network env (request_for E site) = HttpResponse status (Ok body)
    /\ status_ok status = true
    /\ JSON_parse E body = Ok result.
Proof.
  unfold decoded_body.
  destruct (network env (request_for E site)) as [e|status [body|e]]; try discriminate.
  destruct (status_ok status) eqn:Hst; [|discriminate].
  destruct (JSON_parse E body) as [r|e] eqn:Hp; [|discriminate].
  intros [= <-]. exists status, body. auto.
Qed.

(** The inner [try] never throws. *)
Lemma parse_text_total (E : Engine) (jsonText : JsVal) (w : World) :
  exists sites w', parse_text E jsonText w = (Ok sites, w') /\ page w' = page w.
Proof.
  rewrite parse_text_run.
  destruct (decoded_text E jsonText) as [v|e].
  - rewrite sites_of_parsed_run. destruct (suggestions E v); eauto.
  - eauto.
Qed.

(** After a success response whose body decodes to an envelope with a
    text, the call is the inner [try] on that text, two events later. *)
Lemma fetchSimilarSites_text (E : Engine) (env : Env) (site : string) (w : World)
    (result jsonText : JsVal) :
  truthy (JStr site) = true ->
  decoded_body E env site = Some result ->
  extracted_text E result = Some jsonText ->
  fetchSimilarSites E env (JStr site) w
  = parse_text E jsonText
      {| page := page w;
         events := (events w ++ [EvFetch (request_for E site); EvResponseJson])%list |}.
Proof.
  intros Hu Hd Hx.
  destruct (decoded_body_inv E env site result Hd) as [status [body [Hnet [Hst Hp]]]].
  rewrite (fetchSimilarSites_run E env site w Hu), Hnet, Hst, Hp. cbn zeta.
  rewrite read_envelope_run, Hx.
  unfold log. cbn [page events]. gather_events.
  match goal with
  | |- context [parse_text E jsonText ?w2] =>
      destruct (parse_text_total E jsonText w2) as [sites [w' [Hrun _]]]
  end.
  rewrite Hrun. reflexivity.
Qed.

(** C3: for every envelope whose extracted inner text is not valid JSON
    ([JSON.parse] of it throws), [fetchSimilarSites] returns an empty
    sequence and raises nothing: the failure is caught by the inner
    handler, which logs it; the page is not touched. *)
Theorem fetchSimilarSites_inner_text_not_json
    (E : Engine) (env : Env) (site : string) (w : World) (result jsonText : JsVal) (e : Exn) :
  truthy (JStr site) = true ->
  decoded_body E env site = Some result ->
  extracted_text E result = Some jsonText ->
  decoded_text E jsonText = Throw e ->
  fetchSimilarSites E env (JStr site) w
  = (Ok [],
     {| page := page w;
        events := (events w
                   ++ [EvFetch (request_for E site);
                       EvResponseJson;
                       EvJSONparse jsonText;
                       EvConsole LevelError
                         [LStr "Failed to parse JSON from API response:"; LExn e;
                          LStr "Raw text was:"; LVal jsonText]])%list |}).
Proof.
  intros Hu Hd Hx Hp.
  rewrite (fetchSimilarSites_text E env site w result jsonText Hu Hd Hx).
  rewrite parse_text_run, Hp. cbn [page events]. gather_events. reflexivity.
Qed.

Lemma fetchSimilarSites_inner_text_not_json_witness :
  truthy (JStr Sample.tab) = true
  /\ decoded_body Sample.engine Sample.env_prose Sample.tab = Some Sample.prose_result
  /\ extracted_text Sample.engine Sample.prose_result = Some Sample.prose_text
  /\ decoded_text Sample.engine Sample.prose_text = Throw Sample.prose_error
  /\ fetchSimilarSites Sample.engine Sample.env_prose (JStr Sample.tab) Sample.world0
     = (Ok [],
        {| page := page Sample.world0;
           events := (events Sample.world0
                      ++ [EvFetch (request_for Sample.engine Sample.tab);
                          EvResponseJson;
                          EvJSONparse Sample.prose_text;
                          EvConsole LevelError
                            [LStr "Failed to parse JSON from API response:";
                             LExn Sample.prose_error;
                             LStr "Raw text was:"; LVal Sample.prose_text]])%list |}).
Proof.
  split; [reflexivity|]. split; [vm_compute; reflexivity|].
  split; [vm_compute; reflexivity|]. split; [vm_compute; reflexivity|].
  apply (fetchSimilarSites_inner_text_not_json Sample.engine Sample.env_prose Sample.tab
           Sample.world0 Sample.prose_result Sample.prose_text Sample.prose_error).
  - reflexivity.
  - vm_compute; reflexivity.
  - vm_compute; reflexivity.
  - vm_compute; reflexivity.
Defined.

(** C4: for every array decoded from the inner JSON under the agreed
    key, the returned sequence is exactly the ordered subsequence of its
    elements that are non-empty strings beginning with [http://] or
    [https://]: every other element is dropped, the order is kept, and
    nothing else is removed (no deduplication, no truncation to five). *)
Theorem fetchSimilarSites_keeps_valid_sites
    (E : Engine) (env : Env) (site : string) (w : World)
    (result jsonText parsedJson : JsVal) (items : list JsVal) :
  truthy (JStr site) = true ->
  decoded_body E env site = Some result ->
  extracted_text E result = Some jsonText ->
  decoded_text E jsonText = Ok parsedJson ->
  suggestions E parsedJson = Some items ->
  exists sites : list string,
    fetchSimilarSites E env (JStr site) w
    = (Ok sites,
       {| page := page w;
          events := (events w
                     ++ [EvFetch (request_for E site); EvResponseJson;
                         EvJSONparse jsonText])%list |})
    /\ List.map JStr sites = filter valid_site items.
Proof.
  intros Hu Hd Hx Hp Hs.
  exists (strings_of (filter keep_url items)). split.
  - rewrite (fetchSimilarSites_text E env site w result jsonText Hu Hd Hx).
    rewrite parse_text_run, Hp, sites_of_parsed_run, Hs.
    unfold log. cbn [page events]. gather_events. reflexivity.
  - rewrite strings_of_kept. apply filter_ext. exact keep_url_valid_site.
Qed.

Lemma fetchSimilarSites_keeps_valid_sites_witness :
  truthy (JStr Sample.tab) = true
  /\ decoded_body Sample.engine Sample.env_mixed Sample.tab = Some Sample.mixed_result
  /\ extracted_text Sample.engine Sample.mixed_result = Some Sample.mixed_text
  /\ decoded_text Sample.engine Sample.mixed_text = Ok Sample.mixed_parsed
  /\ suggestions Sample.engine Sample.mixed_parsed = Some Sample.mixed_sites
  /\ exists sites : list string,
       fetchSimilarSites Sample.engine Sample.env_mixed (JStr Sample.tab) Sample.world0
       = (Ok sites,
          {| page := page Sample.world0;
             events := (events Sample.world0
                        ++ [EvFetch (request_for Sample.engine Sample.tab); EvResponseJson;
                            EvJSONparse Sample.mixed_text])%list |})
       /\ List.map JStr sites = filter valid_site Sample.mixed_sites.
Proof.
  split; [reflexivity|]. split; [vm_compute; reflexivity|].
  split; [vm_compute; reflexivity|]. split; [vm_compute; reflexivity|].
  split; [vm_compute; reflexivity|].
  apply (fetchSimilarSites_keeps_valid_sites Sample.engine Sample.env_mixed Sample.tab
           Sample.world0 Sample.mixed_result Sample.mixed_text Sample.mixed_parsed
           Sample.mixed_sites).
  - reflexivity.
  - vm_compute; reflexivity.
  - vm_compute; reflexivity.
  - vm_compute; reflexivity.
  - vm_compute; reflexivity.
Defined.

(** The sample of C4: twelve suggestions, seven valid ones, one of them
    twice; all seven come back, in order. *)
Example fetchSimilarSites_mixed_sample :
  fst (fetchSimilarSites Sample.engine Sample.env_mixed (JStr Sample.tab) Sample.world0)
  = Ok ["https://ok.com"; "http://a.com"; "https://ok.com"; "https://c.com";
        "https://e.com"; "https://f.com"; "https://g.com"].
Proof. vm_compute. reflexivity. Qed.

(** The sample of the specification: a well-formed envelope with two
    suggestions gives exactly these two, in order. *)
Example fetchSimilarSites_two_sites_sample :
  fst (fetchSimilarSites Sample.engine Sample.env_two_sites (JStr Sample.tab) Sample.world0)
  = Ok ["https://a.com"; "https://b.com"].
Proof. vm_compute. reflexivity. Qed.

(** *** Every outcome *)

(** Whatever the network and the service do, a call for a string
    returns the sites of its outcome; it leaves the page as it was, or,
    when it returns nothing, with another message text. *)
Lemma fetchSimilarSites_outcome (E : Engine) (env : Env) (site : string) (w : World) :
  truthy (JStr site) = true ->
  exists w',
    fetchSimilarSites E env (JStr site) w = (Ok (sites_of_outcome (outcome E env site)), w')
    /\ (page w' = page w
        \/ (sites_of_outcome (outcome E env site) = []
            /\ exists m, page w' = set_message_textContent m (page w))).
Proof.
  intros Hu.
  assert (Herr : forall e evs out,
             sites_of_outcome out = [] ->
             exists w',
               on_error e {| page := page w; events := evs |} = (Ok (sites_of_outcome out), w')
               /\ (page w' = page w
                   \/ (sites_of_outcome out = []
                       /\ exists m, page w' = set_message_textContent m (page w)))).
  { intros e evs out Hout. rewrite Hout, on_error_run. eexists. split; [reflexivity|].
    right. split; [reflexivity|]. eexists. reflexivity. }
  rewrite (fetchSimilarSites_run E env site w Hu). unfold outcome, log. cbn zeta.
  destruct (network env (request_for E site)) as [e|status body].
  { apply Herr. reflexivity. }
  destruct (status_ok status); cbn [negb].
  - destruct body as [b|e]; [|apply Herr; reflexivity].
    destruct (JSON_parse E b) as [result|e]; [|apply Herr; reflexivity].
    rewrite read_envelope_run.
    destruct (extracted_text E result) as [jsonText|].
    + rewrite parse_text_run.
      destruct (decoded_text E jsonText) as [parsedJson|e].
      * rewrite sites_of_parsed_run.
        destruct (suggestions E parsedJson) as [items|];
          (eexists; split; [reflexivity|left; reflexivity]).
      * eexists; split; [reflexivity|left; reflexivity].
    + destruct (has_text_part E result) as [ok|e].
      * eexists; split; [reflexivity|left; reflexivity].
      * apply Herr. reflexivity.
  - destruct body as [b|e]; apply Herr; reflexivity.
Qed.

(** C6: [fetchSimilarSites] is total at its boundary: for every URL
    argument (a string, or absent) and every outcome of the transport
    and of the service (network rejection, non-success status, body that
    cannot be read or is not JSON, malformed envelope, inner text that is
    not JSON, wrong inner shape), it returns a sequence of strings and
    lets no exception escape. *)
Theorem fetchSimilarSites_total (E : Engine) (env : Env) (siteUrl : JsVal) (w : World) :
  url_argument siteUrl ->
  exists (sites : list string) (w' : World),
    fetchSimilarSites E env siteUrl w = (Ok sites, w').
Proof.
  intros [-> | [-> | [s ->]]].
  - exists [], w. reflexivity.
  - exists [], w. reflexivity.
  - destruct (truthy (JStr s)) eqn:Hu.
    + destruct (fetchSimilarSites_outcome E env s w Hu) as [w' [Hrun _]].
      eauto.
    + exists [], w. unfold fetchSimilarSites. rewrite Hu. reflexivity.
Qed.

Lemma fetchSimilarSites_total_witness :
  url_argument (JStr Sample.tab)
  /\ exists (sites : list string) (w' : World),
       fetchSimilarSites Sample.engine Sample.env_500 (JStr Sample.tab) Sample.world0
       = (Ok sites, w').
Proof.
  split.
  - right; right; exists Sample.tab; reflexivity.
  - apply (fetchSimilarSites_total Sample.engine Sample.env_500 (JStr Sample.tab)
             Sample.world0).
    right; right; exists Sample.tab; reflexivity.
Defined.

(** *** The envelope *)



(** *** The tab locator *)

(** [getCurrentTabUrl] settles with [located_url] and leaves the page
    alone. *)
Lemma getCurrentTabUrl_located (E : Engine) (env : Env) (w : World) :
  exists w', getCurrentTabUrl E env w = (located_url E env, w') /\ page w' = page w.
Proof.
  unfold getCurrentTabUrl, located_url, query_of, usable_url. run.
  destruct (chrome env) as [|[[[[[query|]]|]]|]]; try (eexists; split; reflexivity).
  destruct (query {| q_active := true; q_currentWindow := true |})
    as [[|[[url|]] rest]|] eqn:Hq;
    unfold active_tab_query; rewrite Hq; try (eexists; split; reflexivity).
  destruct (String.eqb url EmptyString); eexists; split; reflexivity.
Qed.

(** C2, as the code has it: when [chrome] is bound but the tab-query
    capability is missing, [getCurrentTabUrl] logs an error and settles
    with the fixed placeholder [https://example.com], a truthy URL; it
    settles with the absent signal [null] only when the query runs and
    its first tab has no usable URL. *)
Theorem getCurrentTabUrl_fallback
    (E : Engine) (env : Env) (w : World) (c : option ChromeObject) :
  chrome env = ChromeBound c ->
  match query_of c with
  | None =>
      getCurrentTabUrl E env w
      = (Ok (Some "https://example.com"),
         log w (EvConsole LevelError
                  [LStr "chrome.tabs.query is not available. Are you running this in an extension popup?"]))
      /\ url_truthy (Some "https://example.com") = true
  | Some query =>
      fst (getCurrentTabUrl E env w) = Ok (usable_url (query active_tab_query))
  end.
Proof.
  intros Hc.
  destruct (query_of c) as [query|] eqn:Hq.
  - destruct (getCurrentTabUrl_located E env w) as [w' [Hrun _]].
    rewrite Hrun. unfold located_url. rewrite Hc, Hq. reflexivity.
  - split; [|reflexivity].
    unfold getCurrentTabUrl. rewrite Hc.
    destruct c as [[[[[query|]]|]]|]; cbn in Hq; try discriminate; reflexivity.
Qed.

Lemma getCurrentTabUrl_fallback_witness :
  chrome Sample.env_plain_page = ChromeBound (Some {| chrome_tabs := None |})
  /\ getCurrentTabUrl Sample.engine Sample.env_plain_page Sample.world0
     = (Ok (Some "https://example.com"),
        log Sample.world0
          (EvConsole LevelError
             [LStr "chrome.tabs.query is not available. Are you running this in an extension popup?"]))
  /\ url_truthy (Some "https://example.com") = true.
Proof.
  split; [reflexivity|].
  apply (getCurrentTabUrl_fallback Sample.engine Sample.env_plain_page Sample.world0
           (Some {| chrome_tabs := None |})).
  reflexivity.
Defined.

(** C2 as stated fails: on a page where [chrome] has no [tabs], the
    capability is unavailable and the promise settles with the
    placeholder URL, not with the [null] it gives when the query finds no
    tab; the caller can tell the two apart. *)
Lemma getCurrentTabUrl_unavailable_not_absent :
  query_of (Some {| chrome_tabs := None |}) = None
  /\ chrome Sample.env_plain_page = ChromeBound (Some {| chrome_tabs := None |})
  /\ fst (getCurrentTabUrl Sample.engine Sample.env_plain_page Sample.world0)
     = Ok (Some "https://example.com")
  /\ fst (getCurrentTabUrl Sample.engine Sample.env_no_tab Sample.world0) = Ok None
  /\ fst (getCurrentTabUrl Sample.engine Sample.env_plain_page Sample.world0)
     <> fst (getCurrentTabUrl Sample.engine Sample.env_no_tab Sample.world0).
Proof.
  repeat split; try reflexivity. cbn. discriminate.
Qed.

(** *** The presenter *)

Lemma forEach_appends (sites : list string) (w : World) :
  forEach sites (fun site => appendChild (site_item site)) w
  = (Ok tt,
     {| page := set_similarSitesList_children
                  (similarSitesList_children (page w) ++ List.map site_item sites)%list (page w);
        events := events w |}).
Proof.
  revert w. induction sites as [|site rest IH]; intros w.
  - cbn. rewrite app_nil_r. destruct w as [[] evs]; reflexivity.
  - cbn [forEach]. unfold bind at 1. unfold appendChild at 1. unfold update at 1.
    rewrite IH. cbn [page events similarSitesList_children set_similarSitesList_children
                      List.map].
    rewrite <- app_assoc. reflexivity.
Qed.

(** The two runs of [displaySimilarSites]. *)
Lemma displaySimilarSites_run (sites : list string) (w : World) :
  displaySimilarSites sites w
  = (Ok tt,
     {| page :=
          match sites with
          | [] => set_message_textContent no_results (set_similarSitesList_children [] (page w))
          | _ :: _ =>
              set_similarSitesList_children (List.map site_item sites)
                (set_message_style_display "none" (page w))
          end;
        events := events w |}).
Proof.
  destruct sites as [|site rest]; [reflexivity|].
  unfold displaySimilarSites. cbn [List.length Nat.eqb].
  unfold bind at 1. unfold update at 1. unfold bind at 1. unfold update at 1.
  rewrite forEach_appends. reflexivity.
Qed.

Lemma entries_of_sites (sites : list string) : Forall2 entry_for sites (List.map site_item sites).
Proof.
  induction sites as [|site rest IH]; constructor; [|exact IH].
  eexists. repeat split; reflexivity.
Qed.

(** C8, as the code has it: for every input sequence and every earlier
    state of the page, [displaySimilarSites] replaces the rendered list;
    on an empty sequence it sets the message text to the fixed no-results
    message, leaves the visibility of the message element as it was, and
    leaves the list with zero entries; on a non-empty sequence it hides
    the message and renders exactly one entry per element, in input
    order, each a link whose label and tooltip are the full URL and whose
    target is the URL opened in a new browsing context. *)
Theorem displaySimilarSites_renders (sites : list string) (w : World) :
  fst (displaySimilarSites sites w) = Ok tt
  /\ Forall2 entry_for sites
       (similarSitesList_children (page (snd (displaySimilarSites sites w))))
  /\ match sites with
     | [] =>
         similarSitesList_children (page (snd (displaySimilarSites sites w))) = []
         /\ message_textContent (page (snd (displaySimilarSites sites w))) = no_results
         /\ message_style_display (page (snd (displaySimilarSites sites w)))
            = message_style_display (page w)
     | _ :: _ =>
         message_style_display (page (snd (displaySimilarSites sites w))) = "none"
         /\ displayed (message_style_display (page (snd (displaySimilarSites sites w)))) = false
     end.
Proof.
  rewrite displaySimilarSites_run. cbn [fst snd page].
  split; [reflexivity|]. split.
  - destruct sites as [|site rest]; [constructor|].
    cbn [similarSitesList_children set_similarSitesList_children]. apply entries_of_sites.
  - destruct sites as [|site rest]; repeat split; reflexivity.
Qed.

(** C8 as stated fails: once a non-empty rendering has hidden the
    message element, rendering an empty sequence sets the no-results
    text but does not display it. *)
Lemma displaySimilarSites_empty_not_displayed :
  message_textContent (page (snd (displaySimilarSites [] Sample.world_after_one_site)))
  = no_results
  /\ displayed
       (message_style_display (page (snd (displaySimilarSites [] Sample.world_after_one_site))))
     = false.
Proof.
  split; reflexivity.
Qed.

(** C10: [displaySimilarSites] sets the display style of the message
    element to [none] when it renders a non-empty sequence and never sets
    it back: on an empty sequence it only updates the message text.
    Hence an empty rendering that follows a non-empty one sets the
    no-results text while the element stays hidden.  The other
    presentation fields (text and tooltip of the current site, loader)
    are not touched, and nothing is logged or sent. *)
Theorem displaySimilarSites_message_stays_hidden (w : World) :
  (forall site rest,
      message_style_display (page (snd (displaySimilarSites (site :: rest) w))) = "none")
  /\ message_style_display (page (snd (displaySimilarSites [] w)))
     = message_style_display (page w)
  /\ message_textContent (page (snd (displaySimilarSites [] w))) = no_results
  /\ (forall site rest,
         let w1 := snd (displaySimilarSites (site :: rest) w) in
         let w2 := snd (displaySimilarSites [] w1) in
         message_textContent (page w2) = no_results
         /\ message_style_display (page w2) = "none"
         /\ displayed (message_style_display (page w2)) = false)
  /\ (forall sites,
         let w' := snd (displaySimilarSites sites w) in
         currentSite_textContent (page w') = currentSite_textContent (page w)
         /\ currentSite_title (page w') = currentSite_title (page w)
         /\ loader_style_display (page w') = loader_style_display (page w)
         /\ events w' = events w).
Proof.
  repeat split; intros; cbv zeta; rewrite ?displaySimilarSites_run; cbn [snd page events];
    try reflexivity.
  all: destruct sites; reflexivity.
Qed.

(** *** The whole flow *)

Lemma located_url_truthy (E : Engine) (env : Env) (u : string) :
  located_url E env = Ok (Some u) -> url_truthy (Some u) = true.
Proof.
  unfold located_url, usable_url.
  destruct (chrome env) as [|c]; [discriminate|].
  destruct (query_of c) as [query|].
  - destruct (query active_tab_query) as [[|[[url|]] rest]|]; try discriminate.
    destruct (String.eqb url EmptyString) eqn:Hu; [discriminate|].
    intros [= <-]. cbn. rewrite Hu. reflexivity.
  - intros [= <-]. reflexivity.
Qed.

(** With a located URL, [main] ends with the page that its list of
    sites decides: the no-results page when there is none, else the
    rendered list. *)
Lemma main_run (E : Engine) (env : Env) (w : World) (u : string) :
  located_url E env = Ok (Some u) ->
  exists evs,
    main E env w
    = (Ok tt,
       {| page :=
            match sites_of_outcome (outcome E env u) with
            | [] => no_results_page u (page w)
            | site :: rest => sites_page u (site :: rest) (page w)
            end;
          events := evs |}).
Proof.
  intros Hloc. pose proof (located_url_truthy E env u Hloc) as Hu.
  unfold main.
  unfold bind at 1. unfold update at 1.
  unfold bind at 1. unfold update at 1. cbn [page events].
  unfold bind at 1. unfold update at 1. cbn [page events].
  unfold bind at 1.
  match goal with
  | |- context [getCurrentTabUrl E env ?w1] =>
      destruct (getCurrentTabUrl_located E env w1) as [w2 [Hrun Hpage]]
  end.
  rewrite Hrun, Hloc, Hu. cbn [page] in Hpage. cbn [url_string].
  unfold bind at 1. unfold update at 1.
  unfold bind at 1. unfold update at 1. cbn [page events].
  unfold bind at 1. unfold update at 1. cbn [page events].
  unfold try_catch. unfold bind at 1.
  match goal with
  | |- context [fetchSimilarSites E env (JStr u) ?w3] =>
      destruct (fetchSimilarSites_outcome E env u w3 Hu) as [w4 [Hfetch Hframe]]
  end.
  rewrite Hfetch. cbn [page] in Hframe.
  unfold bind at 1. unfold update at 1.
  rewrite displaySimilarSites_run. cbn [page events].
  eexists. f_equal. f_equal.
  destruct Hframe as [Hsame | [Hnone [m Hm]]].
  - rewrite Hsame, Hpage.
    destruct (sites_of_outcome (outcome E env u)); destruct (page w); reflexivity.
  - rewrite Hnone, Hm, Hpage. destruct (page w); reflexivity.
Qed.

(** C9, as the code has it: over the full flow, every failure kind ends
    with the presentation of a genuinely empty result, a transport
    failure included: the message text is the fixed no-results message,
    the list is empty and the loader is hidden.  The error text that
    [fetchSimilarSites] writes on a transport failure is overwritten by
    [displaySimilarSites] before [main] returns. *)
Theorem main_failure_presentation (E : Engine) (env : Env) (w : World) (u : string) :
  located_url E env = Ok (Some u) ->
  match outcome E env u with
  | TransportFailure | MalformedEnvelope | MalformedPayload => True
  | Suggestions items => filter valid_site items = []
  end ->
  exists evs,
    main E env w = (Ok tt, {| page := no_results_page u (page w); events := evs |}).
Proof.
  intros Hloc Hout.
  destruct (main_run E env w u Hloc) as [evs Hrun].
  exists evs. rewrite Hrun.
  assert (Hnone : sites_of_outcome (outcome E env u) = []).
  { destruct (outcome E env u) as [| | |items]; try reflexivity.
    cbn [sites_of_outcome].
    rewrite (filter_ext _ _ keep_url_valid_site), Hout. reflexivity. }
  rewrite Hnone. reflexivity.
Qed.

Lemma main_failure_presentation_witness :
  located_url Sample.engine Sample.env_500 = Ok (Some Sample.tab)
  /\ match outcome Sample.engine Sample.env_500 Sample.tab with
     | TransportFailure | MalformedEnvelope | MalformedPayload => True
     | Suggestions items => filter valid_site items = []
     end
  /\ exists evs,
       main Sample.engine Sample.env_500 Sample.world0
       = (Ok tt, {| page := no_results_page Sample.tab (page Sample.world0); events := evs |}).
Proof.
  split; [reflexivity|]. split; [exact I|].
  apply (main_failure_presentation Sample.engine Sample.env_500 Sample.world0 Sample.tab).
  - reflexivity.
  - exact I.
Defined.

(** C9 as stated fails: after a transport failure (status 500) the flow
    ends with exactly the page of a genuinely empty result; no distinct
    error message is left for the user to see. *)
Lemma main_transport_failure_not_distinct :
  outcome Sample.engine Sample.env_500 Sample.tab = TransportFailure
  /\ outcome Sample.engine Sample.env_no_site Sample.tab = Suggestions []
  /\ page (snd (main Sample.engine Sample.env_500 Sample.world0))
     = page (snd (main Sample.engine Sample.env_no_site Sample.world0))
  /\ message_textContent (page (snd (main Sample.engine Sample.env_500 Sample.world0)))
     = no_results.
Proof.
  repeat split; vm_compute; reflexivity.
Qed.

(** The flow on the sample of two suggestions: both are rendered, in
    order, and the message is hidden. *)
Example main_two_sites_sample :
  page (snd (main Sample.engine Sample.env_two_sites Sample.world0))
  = sites_page Sample.tab ["https://a.com"; "https://b.com"] (page Sample.world0).
Proof. vm_compute. reflexivity. Qed.

(** Running the flow a second time on the page the first run left gives
    the same page again. *)
Example main_twice_sample :
  page (snd (main Sample.engine Sample.env_two_sites
               (snd (main Sample.engine Sample.env_two_sites Sample.world0))))
  = page (snd (main Sample.engine Sample.env_two_sites Sample.world0))
  /\ page (snd (main Sample.engine Sample.env_500
                  (snd (main Sample.engine Sample.env_500 Sample.world0))))
     = page (snd (main Sample.engine Sample.env_500 Sample.world0)).
Proof. split; vm_compute; reflexivity. Qed.

(** Without a usable tab the flow ends on the could-not-determine
    message and sends nothing. *)
Example main_no_tab_sample :
  message_textContent (page (snd (main Sample.engine Sample.env_no_tab Sample.world0)))
  = "Could not determine the current site URL. Ensure you are on a valid webpage."
  /\ fetch_calls (snd (main Sample.engine Sample.env_no_tab Sample.world0)) = 0.
Proof. split; vm_compute; reflexivity. Qed.

(* ================================================================= *)
(** ** Further properties *)

Import Shape.

(** *** A positive length is above zero

    The script tests [candidates.length > 0] and [parts.length > 0] on
    numbers; a length is converted to binary64 by rounding.  Rounding a
    positive integer never gives zero. *)

Lemma shr_1_div2 (mrs : shr_record) :
  (0 <= shr_m mrs)%Z -> shr_m (shr_1 mrs) = Z.div2 (shr_m mrs).
Proof.
  destruct mrs as [m r s]. cbn [shr_m]. intros Hm.
  destruct m as [|[q|q|]|q]; try reflexivity; lia.
Qed.

Lemma iter_shr_1 (k : positive) (mrs : shr_record) :
  (0 <= shr_m mrs)%Z -> shr_m (iter_pos shr_1 k mrs) = Z.shiftr (shr_m mrs) (Zpos k).
Proof.
  revert mrs. induction k as [k IH|k IH|]; intros mrs Hm; cbn [iter_pos].
  - assert (H1 : (0 <= shr_m (shr_1 mrs))%Z).
    { rewrite shr_1_div2 by exact Hm. apply Z.div2_nonneg. exact Hm. }
    assert (H2 : (0 <= shr_m (iter_pos shr_1 k (shr_1 mrs)))%Z).
    { rewrite IH by exact H1. apply Z.shiftr_nonneg. exact H1. }
    rewrite IH by exact H2. rewrite IH by exact H1. rewrite shr_1_div2 by exact Hm.
    rewrite Z.div2_spec. rewrite !Z.shiftr_shiftr by lia. f_equal. lia.
  - assert (H2 : (0 <= shr_m (iter_pos shr_1 k mrs))%Z).
    { rewrite IH by exact Hm. apply Z.shiftr_nonneg. exact Hm. }
    rewrite IH by exact H2. rewrite IH by exact Hm.
    rewrite !Z.shiftr_shiftr by lia. f_equal. lia.
  - rewrite shr_1_div2 by exact Hm. apply Z.div2_spec.
Qed.

Lemma digits2_pos_le (q : positive) : (2 ^ (Zpos (digits2_pos q) - 1) <= Zpos q)%Z.
Proof.
  induction q as [q IH|q IH|]; cbn [digits2_pos].
  - rewrite Pos2Z.inj_succ.
    replace (Z.succ (Zpos (digits2_pos q)) - 1)%Z
      with (Z.succ (Zpos (digits2_pos q) - 1)) by lia.
    rewrite Z.pow_succ_r by lia. lia.
  - rewrite Pos2Z.inj_succ.
    replace (Z.succ (Zpos (digits2_pos q)) - 1)%Z
      with (Z.succ (Zpos (digits2_pos q) - 1)) by lia.
    rewrite Z.pow_succ_r by lia. lia.
  - reflexivity.
Qed.

(** Shifting a positive mantissa to its binary64 exponent leaves it
    positive, as long as the exponent is not below the smallest one. *)
Lemma shr_fexp_positive (m e : Z) (l : location) :
  (0 < m)%Z -> (3 - 1024 - 53 <= e)%Z ->
  (0 < shr_m (fst (shr_fexp 53 1024 m e l)))%Z
  /\ (3 - 1024 - 53 <= snd (shr_fexp 53 1024 m e l))%Z.
Proof.
  intros Hm He. unfold shr_fexp, shr, fexp, emin.
  destruct m as [|q|q]; try lia. cbn [Zdigits2].
  assert (Hrec : shr_m (shr_record_of_loc (Zpos q) l) = Zpos q)
    by (destruct l as [|[| |]]; reflexivity).
  destruct (Z.max (Zpos (digits2_pos q) + e - 53) (3 - 1024 - 53) - e)%Z as [|k|k] eqn:Hn;
    cbn [fst snd]; try (rewrite Hrec; lia).
  rewrite iter_shr_1 by (rewrite Hrec; lia). rewrite Hrec.
  split; [|lia].
  rewrite Z.shiftr_div_pow2 by lia.
  pose proof (digits2_pos_le q) as Hd.
  assert (Hk : (Zpos k <= Zpos (digits2_pos q) - 1)%Z) by lia.
  assert (Hp : (2 ^ Zpos k <= 2 ^ (Zpos (digits2_pos q) - 1))%Z)
    by (apply Z.pow_le_mono_r; lia).
  assert (0 < 2 ^ Zpos k)%Z by (apply Z.pow_pos_nonneg; lia).
  apply Z.div_str_pos. lia.
Qed.

Lemma binary_round_positive (p : positive) :
  SFltb (S754_zero false) (binary_round 53 1024 false p 0) = true.
Proof.
  unfold binary_round.
  destruct (shl_align p 0 (fexp 53 1024 (Zpos (digits2_pos p) + 0))) as [mz ez] eqn:Hal.
  assert (Hez : (3 - 1024 - 53 <= ez)%Z).
  { unfold shl_align, fexp, emin in Hal.
    destruct (Z.max (Zpos (digits2_pos p) + 0 - 53) (3 - 1024 - 53) - 0)%Z eqn:Hd;
      injection Hal as <- <-; lia. }
  unfold binary_round_aux.
  pose proof (shr_fexp_positive (Zpos mz) ez loc_Exact ltac:(lia) Hez) as [H1 H1e].
  destruct (shr_fexp 53 1024 (Zpos mz) ez loc_Exact) as [mrs' e'].
  cbn [fst snd] in H1, H1e.
  assert (Hr : (0 < round_nearest_even (shr_m mrs') (loc_of_shr_record mrs'))%Z).
  { unfold round_nearest_even. destruct (loc_of_shr_record mrs') as [|[| |]]; try lia.
    destruct (Z.even (shr_m mrs')); lia. }
  pose proof (shr_fexp_positive _ e' loc_Exact Hr H1e) as [H2 _].
  destruct (shr_fexp 53 1024
              (round_nearest_even (shr_m mrs') (loc_of_shr_record mrs')) e' loc_Exact)
    as [mrs'' e''].
  cbn [fst] in H2.
  destruct (shr_m mrs'') as [|m|m]; try lia.
  destruct (e'' <=? 1024 - 53)%Z; reflexivity.
Qed.

Lemma Number_gt0_succ (n : nat) : Number_gt0 (Number_of_nat (S n)) = true.
Proof.
  unfold Number_gt0, Number_of_nat, Number_of_Z, binary_normalize, pos_zero.
  rewrite Nat2Z.inj_succ. destruct (Z.succ (Z.of_nat n)) eqn:Hs; try lia.
  apply binary_round_positive.
Qed.

(** [a.length > 0] on an array: true exactly when it has an element. *)
Lemma array_length_gt0 (E : Engine) (items : list JsVal) :
  rbind (Get E (JArr items) length) (gt0 E)
  = Ok (match items with [] => false | _ :: _ => true end).
Proof.
  destruct items as [|x rest]; [reflexivity|].
  cbn [Get rbind gt0 ToNumber List.length]. rewrite Number_gt0_succ. reflexivity.
Qed.

(** *** The envelope, shape by shape *)

(** Reduce the condition of lines 93-96 on a value whose shape is
    known, keeping lengths symbolic. *)
Ltac eval_condition :=
  repeat (cbn -[Number_of_nat Number_gt0 fault]; rewrite ?Number_gt0_succ).

(** The condition of lines 93-96 and the text of line 98, by the
    reading of the body. *)
Lemma reading_verdict (E : Engine) (result : JsVal) :
  match reading result with
  | Found t => has_text_part E result = Ok (truthy t) /\ text_of E result = Ok t
  | Missing => has_text_part E result = Ok false
  | NullRead k => has_text_part E result = Throw (fault E (ReadOfNullish JNull k))
  | Untyped => True
  end.
Proof.
  unfold reading, has_text_part, text_of, and_then.
  destruct result as [| | b | x | s | items | r]; try exact I; [reflexivity|].
  cbn [Get key_name].
  destruct (lookup "candidates" r) as [[| | b | x | s | cs | o]|]; try exact I;
    try reflexivity.
  destruct cs as [|c0 rest]; [reflexivity|].
  unfold reading_of_candidate.
  destruct c0 as [| | b | x | s | items | c]; try exact I; [eval_condition; reflexivity|].
  eval_condition.
  destruct (lookup "content" c) as [ct|]; [|reflexivity].
  unfold reading_of_content.
  destruct ct as [| | b | x | s | items | c']; try exact I; [reflexivity|].
  eval_condition.
  destruct (lookup "parts" c') as [[| | b | x | s | ps | o]|]; try exact I;
    try reflexivity.
  destruct ps as [|p0 rest']; [reflexivity|].
  unfold reading_of_part.
  destruct p0 as [| | b | x | s | items | p]; try exact I; [eval_condition; reflexivity|].
  eval_condition.
  destruct (lookup "text" p) as [t|]; [|reflexivity].
  cbn [rbind]. destruct (truthy t); split; reflexivity.
Qed.

(** X1: on a decoded body of the documented shape, the condition of
    lines 93-96 is the truthiness of the text of the first part of the
    first candidate, and line 98 reads that text; a missing, empty or
    [null] [candidates], [content] or [parts], or a missing [text], makes
    the condition false; a [null] body, first candidate or first part
    makes it throw the engine's [TypeError] for reading a property of
    [null].  A text is extracted in the first case only, when it is
    truthy. *)
Theorem has_text_part_reading (E : Engine) (result : JsVal) :
  match reading result with
  | Found t =>
      has_text_part E result = Ok (truthy t)
      /\ text_of E result = Ok t
      /\ extracted_text E result = (if truthy t then Some t else None)
  | Missing =>
      has_text_part E result = Ok false /\ extracted_text E result = None
  | NullRead k =>
      has_text_part E result = Throw (fault E (ReadOfNullish JNull k))
      /\ extracted_text E result = None
  | Untyped => True
  end.
Proof.
  pose proof (reading_verdict E result) as H. unfold extracted_text.
  destruct (reading result) as [t| |k|]; [| | |exact I].
  - destruct H as [Hc Ht]. rewrite Hc, Ht. destruct (truthy t); auto.
  - rewrite H. auto.
  - rewrite H. auto.
Qed.

(** X2: candidates after the first are never read: whatever follows
    the first candidate, the condition of lines 93-96 and the text of
    line 98 are those of the body with that candidate alone. *)
Theorem has_text_part_first_candidate_only
    (E : Engine) (r : list (string * JsVal)) (c0 : JsVal) (rest : list JsVal) :
  lookup "candidates" r = Some (JArr (c0 :: rest)) ->
  has_text_part E (JObj r) = has_text_part E (JObj [("candidates", JArr [c0])])
  /\ text_of E (JObj r) = text_of E (JObj [("candidates", JArr [c0])]).
Proof.
  intros Hc. unfold has_text_part, text_of, and_then.
  cbn [Get key_name]. rewrite Hc.
  eval_condition. split; reflexivity.
Qed.

Lemma has_text_part_first_candidate_only_witness :
  lookup "candidates" [("candidates", JArr [JObj []; Sample.candidate_with Sample.second_text])]
  = Some (JArr [JObj []; Sample.candidate_with Sample.second_text])
  /\ has_text_part Sample.engine Sample.second_result
     = has_text_part Sample.engine (JObj [("candidates", JArr [JObj []])])
  /\ text_of Sample.engine Sample.second_result
     = text_of Sample.engine (JObj [("candidates", JArr [JObj []])]).
Proof.
  split; [reflexivity|].
  apply (has_text_part_first_candidate_only Sample.engine
           [("candidates", JArr [JObj []; Sample.candidate_with Sample.second_text])]
           (JObj []) [Sample.candidate_with Sample.second_text]).
  reflexivity.
Defined.

(** *** One request, and what comes back *)

(** Close a goal about the trace of a run whose events are known. *)
Ltac close_trace :=
  unfold log; cbn [snd fst page events]; gather_events;
  eexists; split; [reflexivity | repeat constructor].

(** The trace of a call for a non-empty string starts with the request
    and holds no other. *)
Lemma fetchSimilarSites_trace (E : Engine) (env : Env) (site : string) (w : World) :
  truthy (JStr site) = true ->
  exists rest : list Event,
    events (snd (fetchSimilarSites E env (JStr site) w))
    = (events w ++ EvFetch (request_for E site) :: rest)%list
    /\ Forall (fun e => is_fetch e = false /\ is_tabs_query e = false) rest.
Proof.
  intros Hu. rewrite (fetchSimilarSites_run E env site w Hu). cbn zeta.
  destruct (network env (request_for E site)) as [e|status body].
  { rewrite on_error_run. close_trace. }
  destruct (status_ok status).
  - destruct body as [b|e]; [|rewrite on_error_run; close_trace].
    destruct (JSON_parse E b) as [result|e]; [|rewrite on_error_run; close_trace].
    rewrite read_envelope_run.
    destruct (extracted_text E result) as [jsonText|].
    + rewrite parse_text_run.
      destruct (decoded_text E jsonText) as [parsedJson|e]; [|close_trace].
      rewrite sites_of_parsed_run.
      destruct (suggestions E parsedJson) as [items|]; close_trace.
    + destruct (has_text_part E result) as [ok|e]; [close_trace|].
      rewrite on_error_run. close_trace.
  - destruct body as [b|e]; rewrite on_error_run; close_trace.
Qed.

Lemma no_fetch_count (l : list Event) :
  Forall (fun e => is_fetch e = false) l -> filter is_fetch l = [].
Proof.
  induction 1 as [|e l He _ IH]; [reflexivity|].
  cbn [filter]. rewrite He. exact IH.
Qed.

(** X3: a call for a non-empty string sends exactly one request, the
    POST built from that string, before anything else is observed, and
    never a second one: there is no retry, whatever the network or the
    service answers. *)
Theorem fetchSimilarSites_one_request (E : Engine) (env : Env) (site : string) (w : World) :
  truthy (JStr site) = true ->
  fetch_calls (snd (fetchSimilarSites E env (JStr site) w)) = fetch_calls w + 1
  /\ exists rest : list Event,
       events (snd (fetchSimilarSites E env (JStr site) w))
       = (events w ++ EvFetch (request_for E site) :: rest)%list
       /\ Forall (fun e => is_fetch e = false) rest.
Proof.
  intros Hu.
  destruct (fetchSimilarSites_trace E env site w Hu) as [rest [Hev Hrest]].
  assert (Hnone : Forall (fun e => is_fetch e = false) rest).
  { revert Hrest. apply Forall_impl. intros e [He _]. exact He. }
  split; [|exists rest; auto].
  unfold fetch_calls. rewrite Hev, count_app. cbn [filter is_fetch List.length].
  rewrite (no_fetch_count rest Hnone). reflexivity.
Qed.

Lemma fetchSimilarSites_one_request_witness :
  truthy (JStr Sample.tab) = true
  /\ fetch_calls (snd (fetchSimilarSites Sample.engine Sample.env_500 (JStr Sample.tab)
                         Sample.world0))
     = fetch_calls Sample.world0 + 1
  /\ exists rest : list Event,
       events (snd (fetchSimilarSites Sample.engine Sample.env_500 (JStr Sample.tab)
                      Sample.world0))
       = (events Sample.world0 ++ EvFetch (request_for Sample.engine Sample.tab) :: rest)%list
       /\ Forall (fun e => is_fetch e = false) rest.
Proof.
  split; [reflexivity|].
  apply (fetchSimilarSites_one_request Sample.engine Sample.env_500 Sample.tab Sample.world0).
  reflexivity.
Defined.

Lemma kept_have_http_scheme (items : list JsVal) :
  Forall (fun s => http_scheme s = true) (strings_of (filter keep_url items)).
Proof.
  induction items as [|v items IH]; [constructor|].
  cbn [filter]. destruct (keep_url v) eqn:Hk; [|exact IH].
  destruct v as [| | b | x | s | l | o]; cbn in Hk; try discriminate.
  cbn [strings_of]. constructor; [|exact IH].
  unfold startsWith in Hk. unfold http_scheme.
  apply andb_true_iff in Hk. apply Hk.
Qed.

(** X4: whatever string it is called with, and whatever the network,
    the service and the engine do, [fetchSimilarSites] returns, and every
    string it returns begins with [http://] or [https://]. *)
Theorem fetchSimilarSites_sites_http (E : Engine) (env : Env) (site : string) (w : World) :
  exists (sites : list string) (w' : World),
    fetchSimilarSites E env (JStr site) w = (Ok sites, w')
    /\ Forall (fun s => http_scheme s = true) sites.
Proof.
  destruct (truthy (JStr site)) eqn:Hu.
  - destruct (fetchSimilarSites_outcome E env site w Hu) as [w' [Hrun _]].
    exists (sites_of_outcome (outcome E env site)), w'. split; [exact Hrun|].
    destruct (outcome E env site) as [| | |items]; try constructor.
    apply kept_have_http_scheme.
  - exists [], w. split; [|constructor].
    unfold fetchSimilarSites. rewrite Hu. reflexivity.
Qed.

(** *** The failures the outer handler catches *)





(** X7: when the condition of lines 93-96 evaluates to false on the
    decoded body, the call warns once, returns an empty sequence and
    leaves the page untouched: no error text reaches the message. *)
Theorem fetchSimilarSites_no_text
    (E : Engine) (env : Env) (site : string) (w : World) (result : JsVal) :
  truthy (JStr site) = true ->
  decoded_body E env site = Some result ->
  has_text_part E result = Ok false ->
  fetchSimilarSites E env (JStr site) w
  = (Ok [],
     {| page := page w;
        events := (events w
                   ++ [EvFetch (request_for E site);
                       EvResponseJson;
                       EvConsole LevelWarn
                         [LStr "No valid candidates or content parts in API response:";
                          LVal result]])%list |}).
Proof.
  intros Hu Hd Hc.
  destruct (decoded_body_inv E env site result Hd) as [status [body [Hnet [Hst Hp]]]].
  rewrite (fetchSimilarSites_run E env site w Hu), Hnet, Hst, Hp. cbn zeta.
  rewrite read_envelope_run. unfold extracted_text. rewrite Hc.
  unfold log. cbn [page events]. gather_events. reflexivity.
Qed.

Lemma fetchSimilarSites_no_text_witness :
  truthy (JStr Sample.tab) = true
  /\ decoded_body Sample.engine Sample.env_second_candidate Sample.tab
     = Some Sample.second_result
  /\ has_text_part Sample.engine Sample.second_result = Ok false
  /\ fetchSimilarSites Sample.engine Sample.env_second_candidate (JStr Sample.tab)
       Sample.world0
     = (Ok [],
        {| page := page Sample.world0;
           events := (events Sample.world0
                      ++ [EvFetch (request_for Sample.engine Sample.tab);
                          EvResponseJson;
                          EvConsole LevelWarn
                            [LStr "No valid candidates or content parts in API response:";
                             LVal Sample.second_result]])%list |}).
Proof.
  split; [reflexivity|]. split; [vm_compute; reflexivity|].
  split; [vm_compute; reflexivity|].
  apply (fetchSimilarSites_no_text Sample.engine Sample.env_second_candidate Sample.tab
           Sample.world0 Sample.second_result).
  - reflexivity.
  - vm_compute; reflexivity.
  - vm_compute; reflexivity.
Defined.



(** X9: when the inner text is valid JSON but the decoded value has no
    array under [similarWebsites] (the key is missing, or holds something
    else, or the value is not an object), the call warns once, returns an
    empty sequence and leaves the page untouched. *)
Theorem fetchSimilarSites_wrong_inner_shape
    (E : Engine) (env : Env) (site : string) (w : World)
    (result jsonText parsedJson : JsVal) :
  truthy (JStr site) = true ->
  decoded_body E env site = Some result ->
  extracted_text E result = Some jsonText ->
  decoded_text E jsonText = Ok parsedJson ->
  suggestions E parsedJson = None ->
  fetchSimilarSites E env (JStr site) w
  = (Ok [],
     {| page := page w;
        events := (events w
                   ++ [EvFetch (request_for E site);
                       EvResponseJson;
                       EvJSONparse jsonText;
                       EvConsole LevelWarn
                         [LStr "Parsed JSON does not have the expected 'similarWebsites' array structure:";
                          LVal parsedJson]])%list |}).
Proof.
  intros Hu Hd Hx Hp Hs.
  rewrite (fetchSimilarSites_text E env site w result jsonText Hu Hd Hx).
  rewrite parse_text_run, Hp, sites_of_parsed_run, Hs.
  unfold log. cbn [page events]. gather_events. reflexivity.
Qed.

Lemma fetchSimilarSites_wrong_inner_shape_witness :
  truthy (JStr Sample.tab) = true
  /\ decoded_body Sample.engine
       (Sample.env_of (Sample.chrome_popup Sample.tab)
          (Sample.ok_with (Sample.envelope [Sample.candidate_with (JStr "[1, 2]")])))
       Sample.tab
     = Some (Sample.envelope [Sample.candidate_with (JStr "[1, 2]")])
  /\ extracted_text Sample.engine (Sample.envelope [Sample.candidate_with (JStr "[1, 2]")])
     = Some (JStr "[1, 2]")
  /\ decoded_text Sample.engine (JStr "[1, 2]")
     = Ok (JArr [JNum (Number_of_Z 1); JNum (Number_of_Z 2)])
  /\ suggestions Sample.engine (JArr [JNum (Number_of_Z 1); JNum (Number_of_Z 2)]) = None
  /\ fetchSimilarSites Sample.engine
       (Sample.env_of (Sample.chrome_popup Sample.tab)
          (Sample.ok_with (Sample.envelope [Sample.candidate_with (JStr "[1, 2]")])))
       (JStr Sample.tab) Sample.world0
     = (Ok [],
        {| page := page Sample.world0;
           events := (events Sample.world0
                      ++ [EvFetch (request_for Sample.engine Sample.tab);
                          EvResponseJson;
                          EvJSONparse (JStr "[1, 2]");
                          EvConsole LevelWarn
                            [LStr "Parsed JSON does not have the expected 'similarWebsites' array structure:";
                             LVal (JArr [JNum (Number_of_Z 1); JNum (Number_of_Z 2)])]])%list |}).
Proof.
  split; [reflexivity|]. split; [vm_compute; reflexivity|].
  split; [vm_compute; reflexivity|]. split; [vm_compute; reflexivity|].
  split; [reflexivity|].
  apply (fetchSimilarSites_wrong_inner_shape Sample.engine
           (Sample.env_of (Sample.chrome_popup Sample.tab)
              (Sample.ok_with (Sample.envelope [Sample.candidate_with (JStr "[1, 2]")])))
           Sample.tab Sample.world0
           (Sample.envelope [Sample.candidate_with (JStr "[1, 2]")])
           (JStr "[1, 2]")
           (JArr [JNum (Number_of_Z 1); JNum (Number_of_Z 2)])).
  - reflexivity.
  - vm_compute; reflexivity.
  - vm_compute; reflexivity.
  - vm_compute; reflexivity.
  - reflexivity.
Defined.

(** *** What a call leaves of the page *)

(** X10: of the page, [fetchSimilarSites] never touches the current
    site, the list, the loader or the visibility of the message; it
    changes the message text only on a call that returns an empty
    sequence. *)
Theorem fetchSimilarSites_frame (E : Engine) (env : Env) (site : string) (w : World) :
  exists (sites : list string) (w' : World),
    fetchSimilarSites E env (JStr site) w = (Ok sites, w')
    /\ currentSite_textContent (page w') = currentSite_textContent (page w)
    /\ currentSite_title (page w') = currentSite_title (page w)
    /\ similarSitesList_children (page w') = similarSitesList_children (page w)
    /\ message_style_display (page w') = message_style_display (page w)
    /\ loader_style_display (page w') = loader_style_display (page w)
    /\ (message_textContent (page w') = message_textContent (page w) \/ sites = []).
Proof.
  destruct (truthy (JStr site)) eqn:Hu.
  - destruct (fetchSimilarSites_outcome E env site w Hu)
      as [w' [Hrun [Hsame | [Hnone [m Hm]]]]];
      exists (sites_of_outcome (outcome E env site)), w'; (split; [exact Hrun|]).
    + rewrite Hsame. repeat split; auto.
    + rewrite Hm. repeat split; auto.
  - exists [], w. split.
    + unfold fetchSimilarSites. rewrite Hu. reflexivity.
    + repeat split; auto.
Qed.

(** *** The tab locator, in full *)

Lemma getCurrentTabUrl_run (E : Engine) (env : Env) (w : World) :
  getCurrentTabUrl E env w
  = (located_url E env,
     {| page := page w; events := (events w ++ locator_events env)%list |}).
Proof.
  unfold getCurrentTabUrl, located_url, locator_events, query_of, usable_url. run.
  destruct (chrome env) as [|[[[[[query|]]|]]|]]; try reflexivity.
  - rewrite app_nil_r. destruct w; reflexivity.
  - fold active_tab_query.
    destruct (query active_tab_query) as [[|[[url|]] rest]|] eqn:Hq;
      rewrite ?Hq; try destruct (String.eqb url EmptyString);
      cbn [negb]; run; gather_events; reflexivity.
Qed.

(** X11: when the host has the tab-query capability, [getCurrentTabUrl]
    queries once, for the active tab of the current window, and resolves
    with the URL of the first tab of the answer when that tab has a
    non-empty one; otherwise (no answer, no tab, no URL, empty URL) it
    logs the answer and resolves with [null].  Tabs after the first are
    ignored, and the page is not touched. *)
Theorem getCurrentTabUrl_first_tab
    (E : Engine) (env : Env) (w : World) (c : option ChromeObject)
    (query : QueryInfo -> option (list Tab)) :
  chrome env = ChromeBound c ->
  query_of c = Some query ->
  getCurrentTabUrl E env w
  = (Ok (usable_url (query active_tab_query)),
     {| page := page w;
        events := (events w
                   ++ EvTabsQuery active_tab_query
                      :: match usable_url (query active_tab_query) with
                         | Some _ => []
                         | None =>
                             [EvConsole LevelError
                                [LStr "Could not get current tab URL. Tabs:";
                                 LTabs (query active_tab_query)]]
                         end)%list |}).
Proof.
  intros Hc Hq. rewrite getCurrentTabUrl_run.
  unfold located_url, locator_events. rewrite Hc, Hq. reflexivity.
Qed.

Lemma getCurrentTabUrl_first_tab_witness :
  chrome Sample.env_two_sites = Sample.chrome_popup Sample.tab
  /\ query_of (Some {| chrome_tabs :=
                         Some {| tabs_query :=
                                   Some (fun _ => Some [ {| tab_url := Some Sample.tab |} ]) |} |})
     = Some (fun _ => Some [ {| tab_url := Some Sample.tab |} ])
  /\ getCurrentTabUrl Sample.engine Sample.env_two_sites Sample.world0
     = (Ok (Some Sample.tab),
        {| page := page Sample.world0;
           events := (events Sample.world0 ++ [EvTabsQuery active_tab_query])%list |}).
Proof.
  split; [reflexivity|]. split; [reflexivity|].
  apply (getCurrentTabUrl_first_tab Sample.engine Sample.env_two_sites Sample.world0
           (Some {| chrome_tabs :=
                      Some {| tabs_query :=
                                Some (fun _ => Some [ {| tab_url := Some Sample.tab |} ]) |} |})
           (fun _ => Some [ {| tab_url := Some Sample.tab |} ]));
    reflexivity.
Defined.

(** *** The whole flow, in full *)

(** [main], step by step: the three first assignments, the locator,
    then one of three ways on. *)
Lemma main_steps (E : Engine) (env : Env) (w : World) :
  main E env w
  = let evs := (events w ++ locator_events env)%list in
    match located_url E env with
    | Throw e => (Throw e, {| page := loading_page (page w); events := evs |})
    | Ok None => (Ok tt, {| page := no_url_page (page w); events := evs |})
    | Ok (Some u) =>
        match fetchSimilarSites E env (JStr u)
                {| page := set_message_textContent "Finding similar sites..."
                             (set_currentSite_title u
                                (set_currentSite_textContent u (loading_page (page w))));
                   events := evs |}
        with
        | (Ok sites, w3) =>
            displaySimilarSites sites
              {| page := set_loader_style_display "none" (page w3); events := events w3 |}
        | (Throw error, w3) =>
            (Ok tt,
             {| page := set_message_textContent
                          "Failed to load suggestions. See console for details."
                          (set_loader_style_display "none" (page w3));
                events := (events w3
                           ++ [EvConsole LevelError
                                 [LStr "Error in main execution flow:"; LExn error]])%list |})
        end
    end.
Proof.
  cbn zeta. unfold main.
  unfold bind at 1. unfold update at 1.
  unfold bind at 1. unfold update at 1. cbn [page events].
  unfold bind at 1. unfold update at 1. cbn [page events].
  unfold bind at 1. rewrite getCurrentTabUrl_run. cbn [page events].
  destruct (located_url E env) as [[u|]|e] eqn:Hloc.
  - rewrite (located_url_truthy E env u Hloc). cbn [url_string].
    unfold bind at 1. unfold update at 1.
    unfold bind at 1. unfold update at 1. cbn [page events].
    unfold bind at 1. unfold update at 1. cbn [page events].
    unfold try_catch. unfold bind at 1.
    replace (set_similarSitesList_children []
               (set_message_textContent "Fetching current URL..."
                  (set_loader_style_display "block" (page w))))
      with (loading_page (page w)) by (destruct (page w); reflexivity).
    destruct (fetchSimilarSites E env (JStr u) _) as [[sites|error] w3].
    + unfold bind at 1. unfold update at 1.
      rewrite !displaySimilarSites_run. reflexivity.
    + run. gather_events. reflexivity.
  - cbn [url_truthy]. run. destruct (page w); reflexivity.
  - destruct (page w); reflexivity.
Qed.

Lemma main_page (E : Engine) (env : Env) (w : World) :
  page (snd (main E env w)) = final_page E env (page w).
Proof.
  unfold final_page.
  destruct (located_url E env) as [[u|]|e] eqn:Hloc.
  - destruct (main_run E env w u Hloc) as [evs Hrun]. rewrite Hrun. reflexivity.
  - rewrite main_steps, Hloc. reflexivity.
  - rewrite main_steps, Hloc. reflexivity.
Qed.

Lemma main_result (E : Engine) (env : Env) (w : World) :
  fst (main E env w)
  = match located_url E env with
    | Throw e => Throw e
    | Ok _ => Ok tt
    end.
Proof.
  destruct (located_url E env) as [[u|]|e] eqn:Hloc.
  - destruct (main_run E env w u Hloc) as [evs Hrun]. rewrite Hrun. reflexivity.
  - rewrite main_steps, Hloc. reflexivity.
  - rewrite main_steps, Hloc. reflexivity.
Qed.

(** X12: the page [main] leaves is decided by the page it starts on,
    the located URL and the sites found, and by nothing else: the
    loading page when [chrome] is not declared (the only case in which
    [main] throws), the could-not-determine page without a URL, the
    no-results page when no site is found, the rendered list
    otherwise. *)
Theorem main_final_page (E : Engine) (env : Env) (w : World) :
  page (snd (main E env w)) = final_page E env (page w)
  /\ fst (main E env w)
     = match located_url E env with
       | Throw e => Throw e
       | Ok _ => Ok tt
       end.
Proof.
  split; [apply main_page | apply main_result].
Qed.

Lemma final_page_idempotent (E : Engine) (env : Env) (p : Page) :
  final_page E env (final_page E env p) = final_page E env p.
Proof.
  unfold final_page.
  destruct (located_url E env) as [[u|]|e]; try reflexivity.
  destruct (sites_of_outcome (outcome E env u)); reflexivity.
Qed.

(** X13: running the flow again on the page a first run left, in the
    same host and with the same answers, leaves the same page: nothing
    accumulates from one run to the next. *)
Theorem main_idempotent (E : Engine) (env : Env) (w : World) :
  page (snd (main E env (snd (main E env w)))) = page (snd (main E env w)).
Proof.
  rewrite !main_page. apply final_page_idempotent.
Qed.

Lemma locator_events_no_fetch (env : Env) : filter is_fetch (locator_events env) = [].
Proof.
  unfold locator_events.
  destruct (chrome env) as [|c]; [reflexivity|].
  destruct (query_of c) as [query|]; [|reflexivity].
  destruct (usable_url (query active_tab_query)); reflexivity.
Qed.

Lemma locator_events_queries (env : Env) :
  List.length (filter is_tabs_query (locator_events env))
  = match chrome env with
    | ChromeUndeclared => 0
    | ChromeBound c =>
        match query_of c with
        | Some _ => 1
        | None => 0
        end
    end.
Proof.
  unfold locator_events.
  destruct (chrome env) as [|c]; [reflexivity|].
  destruct (query_of c) as [query|]; [|reflexivity].
  destruct (usable_url (query active_tab_query)); reflexivity.
Qed.

Lemma no_query_count (l : list Event) :
  Forall (fun e => is_fetch e = false /\ is_tabs_query e = false) l ->
  filter is_fetch l = [] /\ filter is_tabs_query l = [].
Proof.
  induction 1 as [|e l [Hf Hq] _ [IHf IHq]]; [split; reflexivity|].
  cbn [filter]. rewrite Hf, Hq. auto.
Qed.

(** The events of a run of [main]: those of the locator, then those of
    the one call of [fetchSimilarSites] when a URL is located. *)
Lemma main_events (E : Engine) (env : Env) (w : World) :
  exists rest : list Event,
    events (snd (main E env w))
    = (events w ++ locator_events env
       ++ match located_url E env with
          | Ok (Some u) => EvFetch (request_for E u) :: rest
          | _ => []
          end)%list
    /\ Forall (fun e => is_fetch e = false /\ is_tabs_query e = false) rest.
Proof.
  rewrite main_steps. cbn zeta.
  destruct (located_url E env) as [[u|]|e] eqn:Hloc.
  - pose proof (located_url_truthy E env u Hloc) as Hu.
    match goal with
    | |- context [fetchSimilarSites E env (JStr u) ?w1] =>
        destruct (fetchSimilarSites_trace E env u w1 Hu) as [rest [Hev Hrest]];
        destruct (fetchSimilarSites_outcome E env u w1 Hu) as [w3 [Hrun _]]
    end.
    rewrite Hrun in Hev |- *. cbn [snd events] in Hev.
    rewrite displaySimilarSites_run. cbn [snd events].
    exists rest. split; [|exact Hrest].
    rewrite Hev, <- app_assoc. reflexivity.
  - exists []. split; [|constructor]. cbn [snd events]. rewrite app_nil_r. reflexivity.
  - exists []. split; [|constructor]. cbn [snd events]. rewrite app_nil_r. reflexivity.
Qed.

(** X14: one run of [main] calls [chrome.tabs.query] once when the
    host has the capability and never otherwise, and sends one request
    when a URL is located and none otherwise. *)
Theorem main_calls (E : Engine) (env : Env) (w : World) :
  fetch_calls (snd (main E env w))
  = fetch_calls w
    + match located_url E env with
      | Ok (Some _) => 1
      | _ => 0
      end
  /\ query_calls (snd (main E env w))
     = query_calls w
       + match chrome env with
         | ChromeUndeclared => 0
         | ChromeBound c =>
             match query_of c with
             | Some _ => 1
             | None => 0
             end
         end.
Proof.
  destruct (main_events E env w) as [rest [Hev Hrest]].
  destruct (no_query_count rest Hrest) as [Hf Hq].
  unfold fetch_calls, query_calls. rewrite Hev, !count_app.
  rewrite locator_events_no_fetch, locator_events_queries.
  destruct (located_url E env) as [[u|]|e]; cbn [filter is_fetch is_tabs_query List.length];
    rewrite ?Hf, ?Hq; cbn [List.length]; split; lia.
Qed.

Lemma site_items_http (sites : list string) :
  Forall (fun s => http_scheme s = true) sites ->
  Forall links_http (List.map site_item sites).
Proof.
  induction 1 as [|s sites Hs _ IH]; constructor; [|exact IH].
  unfold links_http. cbn [site_item li_children]. constructor; [exact Hs|constructor].
Qed.

(** X15: every link that [main] leaves in the list points to a URL
    that begins with [http://] or [https://], whatever the host, the
    network, the service and the engine do. *)
Theorem main_links_http (E : Engine) (env : Env) (w : World) :
  Forall links_http (similarSitesList_children (page (snd (main E env w)))).
Proof.
  rewrite main_page. unfold final_page.
  destruct (located_url E env) as [[u|]|e]; try constructor.
  destruct (sites_of_outcome (outcome E env u)) as [|site rest] eqn:Hs; [constructor|].
  cbn [sites_page similarSitesList_children]. apply site_items_http.
  rewrite <- Hs.
  destruct (outcome E env u) as [| | |items]; try constructor.
  apply kept_have_http_scheme.
Qed.

(** X16: in a host where [chrome] is declared, [main] never throws: it
    returns with the loader hidden and the message text one of three
    fixed texts; neither the text of its own handler ([Failed to load
    suggestions...]) nor an [Error: ...] text is ever left. *)
Theorem main_in_host (E : Engine) (env : Env) (w : World) (c : option ChromeObject) :
  chrome env = ChromeBound c ->
  fst (main E env w) = Ok tt
  /\ loader_style_display (page (snd (main E env w))) = "none"
  /\ In (message_textContent (page (snd (main E env w))))
       [ "Could not determine the current site URL. Ensure you are on a valid webpage.";
         no_results;
         "Finding similar sites..." ].
Proof.
  intros Hc.
  assert (Hloc : exists url, located_url E env = Ok url).
  { unfold located_url. rewrite Hc. destruct (query_of c); eauto. }
  destruct Hloc as [url Hloc].
  rewrite main_result, main_page. unfold final_page. rewrite Hloc.
  destruct url as [u|].
  - destruct (sites_of_outcome (outcome E env u));
      (split; [reflexivity|]; split; [reflexivity|]).
    + right; left; reflexivity.
    + right; right; left; reflexivity.
  - split; [reflexivity|]. split; [reflexivity|]. left; reflexivity.
Qed.

Lemma main_in_host_witness :
  chrome Sample.env_500 = Sample.chrome_popup Sample.tab
  /\ fst (main Sample.engine Sample.env_500 Sample.world0) = Ok tt
  /\ loader_style_display (page (snd (main Sample.engine Sample.env_500 Sample.world0)))
     = "none"
  /\ In (message_textContent (page (snd (main Sample.engine Sample.env_500 Sample.world0))))
       [ "Could not determine the current site URL. Ensure you are on a valid webpage.";
         no_results;
         "Finding similar sites..." ].
Proof.
  split; [reflexivity|].
  apply (main_in_host Sample.engine Sample.env_500 Sample.world0
           (Some {| chrome_tabs :=
                      Some {| tabs_query :=
                                Some (fun _ => Some [ {| tab_url := Some Sample.tab |} ]) |} |})).
  reflexivity.
Defined.

(** X17: where the identifier [chrome] is not declared, [main] throws
    the engine's [ReferenceError] out of its first [await]: the list is
    cleared, the message reads [Fetching current URL...], the loader
    stays displayed, and nothing is queried, sent or logged. *)
Theorem main_chrome_undeclared (E : Engine) (env : Env) (w : World) :
  chrome env = ChromeUndeclared ->
  main E env w
  = (Throw (fault E (Undeclared "chrome")),
     {| page := loading_page (page w); events := events w |}).
Proof.
  intros Hc. rewrite main_steps. cbn zeta.
  unfold located_url, locator_events. rewrite Hc. rewrite app_nil_r. reflexivity.
Qed.

Lemma main_chrome_undeclared_witness :
  chrome (Sample.env_of ChromeUndeclared Sample.answer_two_sites) = ChromeUndeclared
  /\ main Sample.engine (Sample.env_of ChromeUndeclared Sample.answer_two_sites) Sample.world0
     = (Throw (fault Sample.engine (Undeclared "chrome")),
        {| page := loading_page (page Sample.world0); events := events Sample.world0 |}).
Proof.
  split; [reflexivity|].
  apply (main_chrome_undeclared Sample.engine
           (Sample.env_of ChromeUndeclared Sample.answer_two_sites) Sample.world0).
  reflexivity.
Defined.

(** *** The presenter, twice *)

(** X18: rendering the same sequence a second time changes nothing:
    the list is replaced, not extended, and the message fields are set to
    what they already are. *)
Theorem displaySimilarSites_idempotent (sites : list string) (w : World) :
  displaySimilarSites sites (snd (displaySimilarSites sites w))
  = displaySimilarSites sites w.
Proof.
  rewrite !displaySimilarSites_run. cbn [snd page events].
  destruct sites as [|site rest]; destruct (page w); reflexivity.
Qed.

(** *** The documented answer *)

(** X19: for a success response whose body has the documented shape,
    with a non-empty string as the text of the first part of the first
    candidate, that decodes to an object holding an array under
    [similarWebsites], the call returns exactly the elements of the array
    that are non-empty strings beginning with [http://] or [https://], in
    order, touching neither the page nor the console. *)
Theorem fetchSimilarSites_documented_answer
    (E : Engine) (env : Env) (site : string) (w : World)
    (result : JsVal) (t : string) (o : list (string * JsVal)) (items : list JsVal) :
  truthy (JStr site) = true ->
  decoded_body E env site = Some result ->
  reading result = Found (JStr t) ->
  truthy (JStr t) = true ->
  JSON_parse E t = Ok (JObj o) ->
  lookup "similarWebsites" o = Some (JArr items) ->
  exists sites : list string,
    fetchSimilarSites E env (JStr site) w
    = (Ok sites,
       {| page := page w;
          events := (events w
                     ++ [EvFetch (request_for E site); EvResponseJson;
                         EvJSONparse (JStr t)])%list |})
    /\ List.map JStr sites = filter valid_site items.
Proof.
  intros Hu Hd Hr Ht Hp Hl.
  assert (Hx : extracted_text E result = Some (JStr t)).
  { pose proof (reading_verdict E result) as Hv. rewrite Hr in Hv.
    destruct Hv as [Hc Hread]. unfold extracted_text. rewrite Hc, Hread, Ht. reflexivity. }
  exists (strings_of (filter keep_url items)). split.
  - rewrite (fetchSimilarSites_text E env site w result (JStr t) Hu Hd Hx).
    rewrite parse_text_run. unfold decoded_text. cbn [ToString rbind]. rewrite Hp.
    rewrite sites_of_parsed_run. unfold suggestions. cbn [Get key_name]. rewrite Hl.
    unfold log. cbn [page events]. gather_events. reflexivity.
  - rewrite strings_of_kept. apply filter_ext. exact keep_url_valid_site.
Qed.

Lemma fetchSimilarSites_documented_answer_witness :
  truthy (JStr Sample.tab) = true
  /\ decoded_body Sample.engine Sample.env_mixed Sample.tab = Some Sample.mixed_result
  /\ reading Sample.mixed_result = Found (JStr (Sample.inner_text Sample.mixed_sites))
  /\ truthy (JStr (Sample.inner_text Sample.mixed_sites)) = true
  /\ JSON_parse Sample.engine (Sample.inner_text Sample.mixed_sites)
     = Ok (JObj [("similarWebsites", JArr Sample.mixed_sites)])
  /\ lookup "similarWebsites" [("similarWebsites", JArr Sample.mixed_sites)]
     = Some (JArr Sample.mixed_sites)
  /\ exists sites : list string,
       fetchSimilarSites Sample.engine Sample.env_mixed (JStr Sample.tab) Sample.world0
       = (Ok sites,
          {| page := page Sample.world0;
             events := (events Sample.world0
                        ++ [EvFetch (request_for Sample.engine Sample.tab); EvResponseJson;
                            EvJSONparse (JStr (Sample.inner_text Sample.mixed_sites))])%list |})
       /\ List.map JStr sites = filter valid_site Sample.mixed_sites.
Proof.
  split; [reflexivity|]. split; [vm_compute; reflexivity|].
  split; [reflexivity|]. split; [vm_compute; reflexivity|].
  split; [vm_compute; reflexivity|]. split; [reflexivity|].
  apply (fetchSimilarSites_documented_answer Sample.engine Sample.env_mixed Sample.tab
           Sample.world0 Sample.mixed_result (Sample.inner_text Sample.mixed_sites)
           [("similarWebsites", JArr Sample.mixed_sites)] Sample.mixed_sites).
  - reflexivity.
  - vm_compute; reflexivity.
  - reflexivity.
  - vm_compute; reflexivity.
  - vm_compute; reflexivity.
  - reflexivity.
Defined.

(** *** The envelope, for every body *)




(** With the text in the first of two candidates, the site it names is
    returned. *)
Example fetchSimilarSites_first_of_two_sample :
  fst (fetchSimilarSites Sample.engine env_first_of_two (JStr Sample.tab) Sample.world0)
  = Ok ["https://a.com"].
Proof. vm_compute. reflexivity. Qed.

(** With the text in the second of two candidates, the first being
    empty, the body reads as holding no data. *)
Example fetchSimilarSites_second_of_two_sample :
  reading Sample.second_result = Missing
  /\ fetchSimilarSites Sample.engine Sample.env_second_candidate (JStr Sample.tab)
       Sample.world0
     = (Ok [], world_no_data Sample.engine Sample.tab Sample.world0 Sample.second_result).
Proof. split; vm_compute; reflexivity. Qed.

(** On the sample of two suggestions the first candidate holds the
    text: the text is found by [reading], and it is what is parsed. *)
Example fetchSimilarSites_envelope_found_sample :
  reading Sample.two_sites_result = Found Sample.two_sites_text
  /\ truthy Sample.two_sites_text = true
  /\ fetchSimilarSites Sample.engine Sample.env_two_sites (JStr Sample.tab) Sample.world0
     = parse_text Sample.engine Sample.two_sites_text
         (world_after_json Sample.engine Sample.tab Sample.world0)
  /\ fst (fetchSimilarSites Sample.engine Sample.env_two_sites (JStr Sample.tab) Sample.world0)
     = Ok ["https://a.com"; "https://b.com"].
Proof. repeat split; vm_compute; reflexivity. Qed.

(** A body of another shape can still be parsed: here [candidates] is
    an object with a [length] of 1 and an element [0], not an array; the
    script reads it as it reads an array and returns the site. *)
Example fetchSimilarSites_array_like_sample :
  reading array_like_result = Untyped
  /\ decoded_body Sample.engine
       (Sample.env_of (Sample.chrome_popup Sample.tab) (Sample.ok_with array_like_result))
       Sample.tab
     = Some array_like_result
  /\ fst (fetchSimilarSites Sample.engine
            (Sample.env_of (Sample.chrome_popup Sample.tab) (Sample.ok_with array_like_result))
            (JStr Sample.tab) Sample.world0)
     = Ok ["https://a.com"].
Proof. repeat split; vm_compute; reflexivity. Qed.
